(** * Aerospace-TFG: satellite-coverage flight filter and KML overlay writer

    Shallow embedding of the two scripts of the repository,

    - [flights_one_sat_filter.py]    (counts the flights inside a footprint),
    - [flights_within_satcov_kml.py] (writes FIR borders and the flights
      inside the footprint to a KML document),

    and the properties of their specification that they meet or miss.

    Modelling decisions.
    - Python floats are idealised as exact rationals ([Q]); an integer
      radius is a [Z] and is compared with a distance after injection.
    - The third-party collaborators (os.path, float(), str(), pandas,
      pygeoj, geopy's great-circle distance) are fields of a [World]
      record: the scripts are functions of the world they run in.
    - Python text is modelled by [string] (bytes); characters beyond ASCII
      are never digits or blanks in [py_int].
    - Console output, file loading and file writing are recorded as a trace
      of events; an uncaught exception or [sys.exit()] ends the run. *)

From Stdlib Require Import List String Ascii Bool Arith ZArith QArith Qabs Lia.
From Stdlib Require Import DecimalString Permutation.
Import ListNotations.

Local Open Scope string_scope.
Local Open Scope list_scope.

(* ================================================================== *)
(** ** Text helpers *)

Infix "+++" := String.append (right associativity, at level 60).

Definition nl : string := String "010"%char EmptyString.
Definition tab : string := String "009"%char EmptyString.
Definition dq : string := String "034"%char EmptyString.

(** [sep in s] for a one-character separator. *)
Fixpoint contains_char (c : ascii) (s : string) : bool :=
  match s with
  | EmptyString => false
  | String d s' => Ascii.eqb d c || contains_char c s'
  end.

(** [s.split(sep)] for a one-character separator: every occurrence cuts,
    so the result always has one more piece than there are separators. *)
Fixpoint split (sep : ascii) (s : string) : list string :=
  match s with
  | EmptyString => [EmptyString]
  | String c s' =>
      if Ascii.eqb c sep then EmptyString :: split sep s'
      else match split sep s' with
           | [] => [String c EmptyString]
           | piece :: rest => String c piece :: rest
           end
  end.

(** [s.startswith(p)]. *)
Definition startswith (p s : string) : bool := String.prefix p s.

(** [x in l] for a list of strings. *)
Fixpoint mem (x : string) (l : list string) : bool :=
  match l with
  | [] => false
  | y :: l' => String.eqb y x || mem x l'
  end.

(** [l.index(x)]: position of the first occurrence. *)
Fixpoint index_of (x : string) (l : list string) : option nat :=
  match l with
  | [] => None
  | y :: l' => if String.eqb y x then Some O
               else option_map S (index_of x l')
  end.

(* ================================================================== *)
(** ** Python's [int(str)] in base 10 *)

Module PyInt.

Definition is_digit (c : ascii) : bool :=
  let n := nat_of_ascii c in (48 <=? n)%nat && (n <=? 57)%nat.

Definition digit_val (c : ascii) : Z := Z.of_nat (nat_of_ascii c - 48).

(** The ASCII characters [int] strips from both ends. *)
Definition is_space (c : ascii) : bool :=
  let n := nat_of_ascii c in
  ((9 <=? n)%nat && (n <=? 13)%nat) || ((28 <=? n)%nat && (n <=? 32)%nat).

Fixpoint lstrip (s : string) : string :=
  match s with
  | String c s' => if is_space c then lstrip s' else s
  | EmptyString => EmptyString
  end.

Fixpoint rstrip (s : string) : string :=
  match s with
  | EmptyString => EmptyString
  | String c s' =>
      match rstrip s' with
      | EmptyString => if is_space c then EmptyString
                       else String c EmptyString
      | r => String c r
      end
  end.

(** Digits, with single underscores allowed between two digits.
    [prev] tells whether the previous character was a digit. *)
Fixpoint digits (s : string) (acc : Z) (prev : bool) : option Z :=
  match s with
  | EmptyString => if prev then Some acc else None
  | String c s' =>
      if is_digit c then digits s' (10 * acc + digit_val c)%Z true
      else if Ascii.eqb c "_" then
             (if prev then digits s' acc false else None)
      else None
  end.

Definition signed (s : string) : option Z :=
  match s with
  | String c s' =>
      if Ascii.eqb c "-" then option_map Z.opp (digits s' 0%Z false)
      else if Ascii.eqb c "+" then digits s' 0%Z false
      else digits s 0%Z false
  | EmptyString => None
  end.

(** [int(s)]; [None] stands for [ValueError]. *)
Definition py_int (s : string) : option Z := signed (rstrip (lstrip s)).

End PyInt.
Export PyInt.

(* ================================================================== *)
(** ** Numbers *)

(** [x < y] on floats, as a boolean. *)
Definition Qlt_bool (x y : Q) : bool := negb (Qle_bool y x).

(** Python's [str] of an [int]. *)
Definition str_int (z : Z) : string :=
  DecimalString.NilZero.string_of_int (Z.to_int z).

(** Modelled from the spec: the two readings of geopy's [Distance] object
    (geopy is not part of the sources).  One length is computed, in
    kilometers; [.km] returns it and [.nm] converts it with the
    nautical-mile factor 1.852 of the unit-consistency property. *)
Module Distance.
Definition km_per_nm : Q := 1852 # 1000.
Definition km (kilometers : Q) : Q := kilometers.
Definition nm (kilometers : Q) : Q := kilometers / km_per_nm.
End Distance.

(* ================================================================== *)
(** ** Data model *)

(** One row of the flights table: the first three columns of the CSV. *)
Record Row := mkRow {
  time_instant : string;
  latitude : Q;
  longitude : Q
}.

(** A scalar held in a GeoJSON property map. *)
Inductive PropValue :=
| PStr (s : string)
| PNum (q : Q)
| PNone.

(** A GeoJSON feature as the KML script reads it: the rings of its
    geometry (each a list of points, each point a list of numbers) and
    its property map in file order. *)
Record Feature := mkFeature {
  coordinates : list (list (list Q));
  properties : list (string * PropValue)
}.

(** The collaborators of the scripts. *)
Record World := mkWorld {
  isfile : string -> bool;                 (* os.path.isfile *)
  splitext : string -> string * string;    (* os.path.splitext *)
  py_float : string -> option Q;           (* float(s); None = ValueError *)
  str_float : Q -> string;                 (* str(x) of a float *)
  read_csv : string -> list Row;           (* pd.read_csv *)
  pygeoj_load : string -> list Feature;    (* pygeoj.load *)
  great_circle : Q * Q -> Q * Q -> Q       (* great_circle(a, b), in km *)
}.

(** [d[key]] on a property map. *)
Fixpoint lookup (key : string) (d : list (string * PropValue))
  : option PropValue :=
  match d with
  | [] => None
  | (k, v) :: d' => if String.eqb k key then Some v else lookup key d'
  end.

Definition str_value (w : World) (v : PropValue) : string :=
  match v with
  | PStr s => s
  | PNum q => str_float w q
  | PNone => "None"
  end.

(* ================================================================== *)
(** ** Effects: a trace of events and an exception *)

Inductive event :=
| Print (text : string)
| PygeojLoad (path : string)
| ReadCsv (path : string)
| FileOpen (path : string)
| FileWrite (text : string)
| FileClose.

Inductive exn :=
| SystemExit
| ValueError
| IndexError
| KeyError
| TypeError.

Definition M (A : Type) : Type := (list event * (exn + A))%type.

Definition ret {A} (a : A) : M A := ([], inr a).
Definition raise {A} (e : exn) : M A := ([], inl e).
Definition emit (ev : event) : M unit := ([ev], inr tt).

Definition bind {A B} (m : M A) (f : A -> M B) : M B :=
  match m with
  | (t, inl e) => (t, inl e)
  | (t, inr a) => let (t', r) := f a in (t ++ t', r)
  end.

Notation "x <- m ;; k" := (bind m (fun x => k))
  (at level 61, m at next level, right associativity).
Notation "m ;; k" := (bind m (fun _ => k))
  (at level 61, right associativity).

(** [try: body except ValueError: handler]. *)
Definition except_ValueError {A} (body handler : M A) : M A :=
  match body with
  | (t, inl ValueError) => let (t', r) := handler in (t ++ t', r)
  | other => other
  end.

Definition print (text : string) : M unit := emit (Print text).
Definition sys_exit {A} : M A := raise SystemExit.

Definition trace {A} (m : M A) : list event := fst m.
Definition outcome {A} (m : M A) : exn + A := snd m.

(** The chunks written, in order. *)
Fixpoint writes (t : list event) : list string :=
  match t with
  | [] => []
  | FileWrite s :: t' => s :: writes t'
  | _ :: t' => writes t'
  end.

(** The files loaded, the files opened for writing and the lines
    printed, in order. *)
Fixpoint loaded (t : list event) : list string :=
  match t with
  | [] => []
  | PygeojLoad p :: t' => p :: loaded t'
  | ReadCsv p :: t' => p :: loaded t'
  | _ :: t' => loaded t'
  end.

Fixpoint opened (t : list event) : list string :=
  match t with
  | [] => []
  | FileOpen p :: t' => p :: opened t'
  | _ :: t' => opened t'
  end.

Fixpoint printed (t : list event) : list string :=
  match t with
  | [] => []
  | Print s :: t' => s :: printed t'
  | _ :: t' => printed t'
  end.

(** What is on disk for the file the run opened: nothing if it was never
    opened, otherwise the chunks written to it since, in order. *)
Fixpoint written (t : list event) : option (list string) :=
  match t with
  | [] => None
  | FileOpen _ :: t' => Some (writes t')
  | _ :: t' => written t'
  end.

(* ================================================================== *)
(** ** Blocks that the two scripts share word for word

    Sections 0.1, 0.2.1 and 0.2.2 of both scripts are the same text up to
    the minimal argument count and the help manual. *)

Definition argv_at (argv : list string) (i : nat) : M string :=
  match nth_error argv i with
  | Some a => ret a
  | None => raise IndexError
  end.

(** [sys.argv[int(sys.argv.index(flag)) + 1]] *)
Definition arg_after (flag : string) (argv : list string) : M string :=
  match index_of flag argv with
  | Some i => argv_at argv (i + 1)
  | None => raise ValueError
  end.

Definition float_ (w : World) (s : string) : M Q :=
  match py_float w s with
  | Some x => ret x
  | None => raise ValueError
  end.

Definition int_ (s : string) : M Z :=
  match py_int s with
  | Some z => ret z
  | None => raise ValueError
  end.

(** Lazy boolean connectives over computations that may raise. *)
Definition or_ (a b : M bool) : M bool :=
  x <- a ;; if (x : bool) then ret true else b.
Definition and_ (a b : M bool) : M bool :=
  x <- a ;; if (x : bool) then b else ret false.
Definition not_ (a : M bool) : M bool :=
  x <- a ;; ret (negb x).

(** [lo <= int(s) < hi] *)
Definition int_between (lo hi : Z) (s : string) : M bool :=
  v <- int_ s ;; ret ((lo <=? v)%Z && (v <? hi)%Z).

Definition man_arg_list : list string := ["-lat"; "-lon"; "-time"; "-rad"].

Fixpoint mandatory_arguments (help_manual : string) (argv : list string)
    (args : list string) : M unit :=
  match args with
  | [] => ret tt
  | argument :: rest =>
      if negb (mem argument argv) then
        print ("ERROR: " +++ argument +++ " argument not found" +++ nl) ;;
        print help_manual ;;
        sys_exit
      else mandatory_arguments help_manual argv rest
  end.

(** 0.1. Command line arguments filtering *)
Definition arguments_filtering (min_len : nat) (help_manual : string)
    (argv : list string) : M unit :=
  if (List.length argv <? min_len)%nat then
    (if (List.length argv =? 2)%nat && String.eqb (nth 1 argv "") "-h"
     then print (nl +++ "HELP MANUAL" +++ nl)
     else print (nl +++ "ERROR: Incorrect arguments" +++ nl)) ;;
    print help_manual ;;
    sys_exit
  else mandatory_arguments help_manual argv man_arg_list.

(** 0.2.1. Numerical values *)
Definition numerical_values (w : World) (help_manual : string)
    (argv : list string) : M (Q * Q * Z) :=
  except_ValueError
    (a <- arg_after "-lat" argv ;;
     sat_lat <- float_ w a ;;
     b <- arg_after "-lon" argv ;;
     sat_lon <- float_ w b ;;
     c <- arg_after "-rad" argv ;;
     sat_radius <- int_ c ;;
     ret (sat_lat, sat_lon, sat_radius))
    (print (nl +++ "ERROR: Incorrect argument values" +++ nl) ;;
     print help_manual ;;
     sys_exit).

(** 0.2.2. Time values.  The third range test reads field 1 again, as the
    scripts do. *)
Definition time_values (help_manual : string) (argv : list string)
  : M string :=
  sat_time <- arg_after "-time" argv ;;
  let sat_time_split := split ":" sat_time in
  bad <- or_ (ret (negb (List.length sat_time_split =? 3)%nat))
             (not_ (and_ (int_between 0 24 (nth 0 sat_time_split ""))
                   (and_ (int_between 0 60 (nth 1 sat_time_split ""))
                         (int_between 0 60 (nth 1 sat_time_split ""))))) ;;
  if (bad : bool) then
    print (nl +++ "ERROR: Incorrect time format" +++ nl) ;;
    print help_manual ;;
    sys_exit
  else ret sat_time.

Definition pd_read_csv (w : World) (path : string) : M (list Row) :=
  emit (ReadCsv path) ;; ret (read_csv w path).

(* ================================================================== *)
(** ** flights_one_sat_filter.py *)

Module Filter.

Definition help_manual : string :=
  "flights_one_sat_filter.py <mandatory_arg> <optional_arg>" +++ nl +++ nl +++
  "  Mandatory arguments:" +++ nl +++ nl +++
  "  *  <flights_file>:     Flight positions file per time instant." +++ nl +++
  "                         It must be in cvs extension." +++ nl +++
  "  *  -lat <latitude>:    Satellite latitude" +++ nl +++
  "  *  -lon <longitude>:   Satellite longitude" +++ nl +++
  "  *  -time <sat_time>:   Time instant" +++ nl +++
  "  *  -rad <sat_radius>:  Satellite coverage radius" +++ nl +++ nl +++
  "  Optional arguments:" +++ nl +++ nl +++
  "  *  -nm:                Use nautic miles for satellite radius" +++ nl +++
  "                         (default_option)" +++ nl +++
  "  *  -km:                Use kilometers for satellite radius" +++ nl +++ nl +++
  "Example:" +++ nl +++ nl +++
  "python flights_one_sat_filter.py file.csv -lat 15.092736 " +++
  "-lon -23.792856 -time 23:25:00 -rad 1000 -km".

(** 0.2.3. Flights file check *)
Definition flights_file_check (w : World) (argv : list string)
  : M string :=
  a <- argv_at argv 1 ;;
  if isfile w a then
    let flights_file := a in
    let file_extension := snd (splitext w flights_file) in
    if negb (String.eqb file_extension ".csv") then
      print (nl +++ "ERROR: Incorrect file extension") ;;
      print "File with flights information must be in csv format" ;;
      sys_exit
    else ret flights_file
  else
    print (nl +++ "ERROR: argument is not a file") ;;
    print "Please, introduce a .csv valid file" ;;
    sys_exit.

(** 1.3. [flights_df[flights_df.iloc[:,0] == sat_time]] *)
Definition filtered_df (flights_df : list Row) (sat_time : string)
  : list Row :=
  filter (fun row => String.eqb (time_instant row) sat_time) flights_df.

(** Body of the loop of 1.4 up to the decision. *)
Definition flight_accepted (w : World) (radius_in_mn : bool)
    (sat_lat sat_lon : Q) (sat_radius : Z) (flights_lat flights_lon : list Q)
    (i : nat) : bool :=
  let sat_pos := (sat_lat, sat_lon) in
  let flight_pos := (nth i flights_lat 0, nth i flights_lon 0) in
  if radius_in_mn &&
     Qlt_bool (Distance.nm (great_circle w sat_pos flight_pos))
              (inject_Z sat_radius)
  then true
  else if Qlt_bool (Distance.km (great_circle w sat_pos flight_pos))
                   (inject_Z sat_radius)
  then true
  else false.

(** 1.4. Aircraft count process *)
Definition aircraft_count (w : World) (radius_in_mn : bool)
    (sat_lat sat_lon : Q) (sat_radius : Z) (flights_lat flights_lon : list Q)
  : Z :=
  fold_left
    (fun count i =>
       if flight_accepted w radius_in_mn sat_lat sat_lon sat_radius
                          flights_lat flights_lon i
       then (count + 1)%Z else count)
    (seq 0 (List.length flights_lat)) 0%Z.

(** 0. Initial checks: the validated
    [(sat_lat, sat_lon, sat_radius, sat_time, flights_file)]. *)
Definition initial_checks (w : World) (argv : list string)
  : M (Q * Q * Z * string * string) :=
  arguments_filtering 10 help_manual argv ;;
  nums <- numerical_values w help_manual argv ;;
  sat_time <- time_values help_manual argv ;;
  flights_file <- flights_file_check w argv ;;
  ret (nums, sat_time, flights_file).

(** 1. Process initialization and 2. Outcome printing *)
Definition process (w : World) (argv : list string)
    (checked : Q * Q * Z * string * string) : M unit :=
  let '(sat_lat, sat_lon, sat_radius, sat_time, flights_file) := checked in
  let radius_in_mn := negb (mem "-km" argv) in
  let radius_unit := if radius_in_mn then "NM" else "km" in
  print (nl +++ "User input values:") ;;
  print ("  Satellite time:      " +++ sat_time) ;;
  print ("  Satellite radius:    " +++ str_int sat_radius +++ " "
           +++ radius_unit) ;;
  print ("  Satellite latitude:  " +++ str_float w sat_lat) ;;
  print ("  Satellite longitude: " +++ str_float w sat_lon) ;;
  print (nl +++ "Loading file...") ;;
  flights_df <- pd_read_csv w flights_file ;;
  let filtered := filtered_df flights_df sat_time in
  let flights_lat := map latitude filtered in
  let flights_lon := map longitude filtered in
  let count := aircraft_count w radius_in_mn sat_lat sat_lon sat_radius
                              flights_lat flights_lon in
  print (nl +++ "Flights within satellite coverage: " +++ str_int count).

Definition main (w : World) (argv : list string) : M unit :=
  checked <- initial_checks w argv ;;
  process w argv checked.

End Filter.

(* ================================================================== *)
(** ** flights_within_satcov_kml.py *)

Module Kml.

Definition help_manual : string :=
  "flights_within_satcov_kml.py <mandatory_arg> <optional_arg>" +++ nl +++ nl +++
  "  Mandatory arguments:" +++ nl +++ nl +++
  "  *  <geojson_file>:     GeoJSON file with FIR information" +++ nl +++
  "  *  <flights_file>:     Flight positions file per time instant." +++ nl +++
  "                         It must be in cvs extension." +++ nl +++
  "  *  <output_name>:      Output file name" +++
  "  *  -lat <latitude>:    Satellite latitude" +++ nl +++
  "  *  -lon <longitude>:   Satellite longitude" +++ nl +++
  "  *  -time <sat_time>:   Time instant to filter by" +++ nl +++
  "  *  -rad <sat_radius>:  Satellite radius coverage" +++ nl +++ nl +++
  "  Optional arguments:" +++ nl +++ nl +++
  "  *  -nm:                Use nautic miles for satellite radius" +++ nl +++
  "                         (default_option)" +++ nl +++
  "  *  -km:                Use kilometers for satellite radius" +++ nl +++ nl +++
  "Example:" +++ nl +++ nl +++
  "python flights_within_satcov_kml.py firs.geojson fired.csv output.kml " +++
  "-lat 15.092736 -lon -23.792856 -time 23:25:00 -rad 1000 -km".

(** [getFIRs]: the first ring and the property map of every feature. *)
Fixpoint getFIRs_loop (features : list Feature)
    (polygons : list (list (list Q)))
    (names : list (list (string * PropValue)))
  : M (list (list (list Q)) * list (list (string * PropValue))) :=
  match features with
  | [] => ret (polygons, names)
  | feature :: rest =>
      match coordinates feature with
      | [] => raise IndexError
      | ring :: _ =>
          getFIRs_loop rest (polygons ++ [ring])
                       (names ++ [properties feature])
      end
  end.

Definition getFIRs (w : World) (geojson : string)
  : M (list (list (list Q)) * list (list (string * PropValue))) :=
  emit (PygeojLoad geojson) ;;
  getFIRs_loop (pygeoj_load w geojson) [] [].

(** [writeKML]: the buffer goes to the file and comes back empty. *)
Definition writeKML (kml_text : string) : M string :=
  emit (FileWrite kml_text) ;; ret "".

(** 0.2.3. GeoJSON file check *)
Definition geojson_file_check (w : World) (argv : list string) : M unit :=
  a <- argv_at argv 1 ;;
  if isfile w a then
    let flights_file := a in
    let file_extension := snd (splitext w flights_file) in
    if negb (String.eqb file_extension ".geojson") then
      print (nl +++ "ERROR: Incorrect file extension") ;;
      print "FIR information file must be in geojson format" ;;
      sys_exit
    else ret tt
  else
    print (nl +++ "ERROR: argument is not a file") ;;
    print "Please, introduce a .geojson valid file" ;;
    sys_exit.

(** 0.2.4. Flights file check *)
Definition flights_file_check (w : World) (argv : list string)
  : M string :=
  a <- argv_at argv 2 ;;
  if isfile w a then
    let flights_file := a in
    let file_extension := snd (splitext w flights_file) in
    if negb (String.eqb file_extension ".csv") then
      print (nl +++ "ERROR: Incorrect file extension") ;;
      print "File with flights information must be in csv format" ;;
      sys_exit
    else ret flights_file
  else
    print (nl +++ "ERROR: argument is not a file") ;;
    print "Please, introduce a .csv valid file" ;;
    sys_exit.

(** 0.2.5. Output name check: two messages, and the script goes on. *)
Definition output_name_check (argv : list string) : M unit :=
  a <- argv_at argv 3 ;;
  if startswith "-" a then
    print (nl +++ "ERROR: output name is not valid") ;;
    print "Please, introduce a valid name"
  else ret tt.

(** 2.2. KML initial values *)
Definition kml_header (output_name : string) : string :=
  let kml_text :=
    "<?xml version=" +++ dq +++ "1.0" +++ dq +++ " encoding=" +++ dq
      +++ "UTF-8" +++ dq +++ "?>" +++ nl in
  let kml_text := kml_text +++
    "<kml xmlns=" +++ dq +++ "http://www.opengis.net/kml/2.2" +++ dq +++ " " in
  let kml_text := kml_text +++
    "xmlns:gx=" +++ dq +++ "http://www.google.com/kml/ext/2.2" +++ dq +++ " " in
  let kml_text := kml_text +++
    "xmlns:kml=" +++ dq +++ "http://www.opengis.net/kml/2.2" +++ dq +++ " " in
  let kml_text := kml_text +++
    "xmlns:atom=" +++ dq +++ "http://www.w3.org/2005/Atom" +++ dq +++ ">" +++ nl in
  let kml_text := kml_text +++ "<Document>" +++ nl in
  let kml_text := kml_text +++ tab +++ "<name>" +++ output_name
                           +++ "</name>" +++ nl in
  kml_text +++ tab +++ "<open>1</open>" +++ nl.

(** 2.3.1. Style for FIR *)
Definition style_FIR : string :=
  tab +++ "<Style id=" +++ dq +++ "FIR" +++ dq +++ ">" +++ nl +++
  tab +++ tab +++ "<LineStyle>" +++ nl +++
  tab +++ tab +++ tab +++ "<color>FFFF0000</color>" +++ nl +++
  tab +++ tab +++ tab +++ "<width>1</width>" +++ nl +++
  tab +++ tab +++ "</LineStyle>" +++ nl +++
  tab +++ tab +++ "<PolyStyle>" +++ nl +++
  tab +++ tab +++ tab +++ "<color>00FFFFFF</color>" +++ nl +++
  tab +++ tab +++ "</PolyStyle>" +++ nl +++
  tab +++ "</Style>" +++ nl.

(** 2.3.2. Style for icons *)
Definition style_Flight : string :=
  tab +++ "<Style id=" +++ dq +++ "Flight" +++ dq +++ ">" +++ nl +++
  tab +++ tab +++ "<IconStyle>" +++ nl +++
  tab +++ tab +++ tab +++ "<color>FFFFD600</color>" +++ nl +++
  tab +++ tab +++ tab +++ "<scale>1.3</scale>" +++ nl +++
  tab +++ tab +++ tab +++ "<Icon>" +++ nl +++
  tab +++ tab +++ tab +++ tab +++
    "<href>http://maps.google.com/mapfiles/kml/shapes/shaded_dot.png</href>"
    +++ nl +++
  tab +++ tab +++ tab +++ "</Icon>" +++ nl +++
  tab +++ tab +++ "</IconStyle>" +++ nl +++
  tab +++ "</Style>" +++ nl.

(** 2.4.3. [for data in names[n_fir]] *)
Fixpoint extended_data (w : World) (keys : list string)
    (names_n : list (string * PropValue)) (kml_text : string) : M string :=
  match keys with
  | [] => ret kml_text
  | data :: rest =>
      match lookup data names_n with
      | None => raise KeyError
      | Some v =>
          let kml_text := kml_text +++ tab +++ tab +++ tab +++
            "<Data name=" +++ dq +++ data +++ dq +++ ">" +++ nl in
          let kml_text := kml_text +++ tab +++ tab +++ tab +++ tab +++
            "<value>" +++ str_value w v +++ "</value>" +++ nl in
          let kml_text := kml_text +++ tab +++ tab +++ tab +++
            "</Data>" +++ nl in
          extended_data w rest names_n kml_text
      end
  end.

(** 2.4.4. [for polygon in polygons[n_fir]] *)
Fixpoint border_points (w : World) (points : list (list Q))
    (kml_text : string) : M string :=
  match points with
  | [] => ret kml_text
  | polygon :: rest =>
      match polygon with
      | p0 :: p1 :: _ =>
          border_points w rest
            (kml_text +++ str_float w p0 +++ "," +++ str_float w p1
                      +++ ",0 ")
      | _ => raise IndexError
      end
  end.

(** Body of the loop of 2.4 for one FIR. *)
Definition fir_placemark (w : World) (polygons_n : list (list Q))
    (names_n : list (string * PropValue)) (kml_text : string) : M string :=
  let kml_text := kml_text +++ tab +++ "<Placemark>" +++ nl in
  FIRname <- match lookup "FIRname" names_n with
             | Some (PStr s) => ret s
             | Some _ => raise TypeError
             | None => raise KeyError
             end ;;
  let kml_text := kml_text +++ tab +++ tab +++ "<name>" +++ FIRname
                           +++ "</name>" +++ nl in
  let kml_text := kml_text +++ tab +++ tab +++ "<styleUrl>#FIR</styleUrl>"
                           +++ nl in
  let kml_text := kml_text +++ tab +++ tab +++ "<ExtendedData>" +++ nl in
  kml_text <- extended_data w (map fst names_n) names_n kml_text ;;
  let kml_text := kml_text +++ tab +++ tab +++ "</ExtendedData>" +++ nl in
  let kml_text := kml_text +++ tab +++ tab +++ "<Polygon>" +++ nl in
  let kml_text := kml_text +++ tab +++ tab +++ tab +++ "<outerBoundaryIs>"
                           +++ nl in
  let kml_text := kml_text +++ tab +++ tab +++ tab +++ tab
                           +++ "<LinearRing>" +++ nl in
  let kml_text := kml_text +++ tab +++ tab +++ tab +++ tab +++ tab
                           +++ "<coordinates>" +++ nl in
  let kml_text := kml_text +++ tab +++ tab +++ tab +++ tab +++ tab +++ tab in
  kml_text <- border_points w polygons_n kml_text ;;
  let kml_text := kml_text +++ nl +++ tab +++ tab +++ tab +++ tab +++ tab
                           +++ "</coordinates>" +++ nl in
  let kml_text := kml_text +++ tab +++ tab +++ tab +++ tab
                           +++ "</LinearRing>" +++ nl in
  let kml_text := kml_text +++ tab +++ tab +++ tab +++ "</outerBoundaryIs>"
                           +++ nl in
  let kml_text := kml_text +++ tab +++ tab +++ "</Polygon>" +++ nl in
  let kml_text := kml_text +++ tab +++ "</Placemark>" +++ nl in
  writeKML kml_text.

(** 2.4. [for n_fir in range(len(polygons))] *)
Fixpoint fir_data (w : World) (polygons : list (list (list Q)))
    (names : list (list (string * PropValue))) (indices : list nat)
    (kml_text : string) : M string :=
  match indices with
  | [] => ret kml_text
  | n_fir :: rest =>
      match nth_error names n_fir, nth_error polygons n_fir with
      | Some names_n, Some polygons_n =>
          kml_text <- fir_placemark w polygons_n names_n kml_text ;;
          fir_data w polygons names rest kml_text
      | _, _ => raise IndexError
      end
  end.

(** 2.5.1. [flights_df[flights_df.iloc[:,0] == sat_time]] *)
Definition filtered_df (flights_df : list Row) (sat_time : string)
  : list Row :=
  filter (fun row => String.eqb (time_instant row) sat_time) flights_df.

(** The point placemark of 2.5.2, appended to the buffer;
    [flight_pos] is [(latitude, longitude)]. *)
Definition flight_placemark (w : World) (flight_pos : Q * Q)
    (kml_text : string) : string :=
  let kml_text := kml_text +++ tab +++ "<Placemark>" +++ nl in
  let kml_text := kml_text +++ tab +++ tab
                           +++ "<styleUrl>#Flight</styleUrl>" +++ nl in
  let kml_text := kml_text +++ tab +++ tab +++ "<Point>" +++ nl in
  let kml_text := (kml_text +++ tab +++ tab +++ tab +++ "<coordinates>" +++
                   str_float w (snd flight_pos) +++ "," +++
                   str_float w (fst flight_pos) +++ ",0</coordinates>s"
                   +++ nl) in
  let kml_text := kml_text +++ tab +++ tab +++ "</Point>" +++ nl in
  kml_text +++ tab +++ "</Placemark>" +++ nl.

(** 2.5.2. Flight within satellite coverage check *)
Fixpoint flight_data (w : World) (radius_in_mn : bool)
    (sat_lat sat_lon : Q) (sat_radius : Z) (flights_lat flights_lon : list Q)
    (indices : list nat) (kml_text : string) : M string :=
  match indices with
  | [] => ret kml_text
  | index :: rest =>
      let sat_pos := (sat_lat, sat_lon) in
      let flight_pos := (nth index flights_lat 0, nth index flights_lon 0) in
      let flight_accepted :=
        if radius_in_mn &&
           Qlt_bool (Distance.nm (great_circle w sat_pos flight_pos))
                    (inject_Z sat_radius)
        then true
        else if Qlt_bool (Distance.km (great_circle w sat_pos flight_pos))
                         (inject_Z sat_radius)
        then true
        else false in
      if flight_accepted then
        kml_text <- writeKML (flight_placemark w flight_pos kml_text) ;;
        flight_data w radius_in_mn sat_lat sat_lon sat_radius
                    flights_lat flights_lon rest kml_text
      else
        flight_data w radius_in_mn sat_lat sat_lon sat_radius
                    flights_lat flights_lon rest kml_text
  end.

(** 0. Initial checks: the validated
    [(sat_lat, sat_lon, sat_radius, sat_time, flights_file)]. *)
Definition initial_checks (w : World) (argv : list string)
  : M (Q * Q * Z * string * string) :=
  arguments_filtering 12 help_manual argv ;;
  nums <- numerical_values w help_manual argv ;;
  sat_time <- time_values help_manual argv ;;
  geojson_file_check w argv ;;
  flights_file <- flights_file_check w argv ;;
  output_name_check argv ;;
  ret (nums, sat_time, flights_file).

(** 1. File and variables initialization and 2. KML file creation *)
Definition process (w : World) (argv : list string)
    (checked : Q * Q * Z * string * string) : M unit :=
  let '(sat_lat, sat_lon, sat_radius, sat_time, flights_file) := checked in
  let radius_in_mn := negb (mem "-km" argv) in
  let radius_unit := if radius_in_mn then "NM" else "km" in
  print (nl +++ "User input values:") ;;
  print ("  Satellite time:      " +++ sat_time) ;;
  print ("  Satellite radius:    " +++ str_int sat_radius +++ " "
           +++ radius_unit) ;;
  print ("  Satellite latitude:  " +++ str_float w sat_lat) ;;
  print ("  Satellite longitude: " +++ str_float w sat_lon) ;;
  print (nl +++ "Loading geojson file...") ;;
  geojson <- argv_at argv 1 ;;
  firs <- getFIRs w geojson ;;
  let '(polygons, names) := firs in
  print (nl +++ "Loading csv file...") ;;
  flights_df <- pd_read_csv w flights_file ;;
  print (nl +++ "Starting KML file creation...") ;;
  output_name <- argv_at argv 3 ;;
  emit (FileOpen ("./" +++ output_name)) ;;
  kml_text <- writeKML (kml_header output_name) ;;
  kml_text <- writeKML (kml_text +++ style_FIR) ;;
  kml_text <- writeKML (kml_text +++ style_Flight) ;;
  kml_text <- fir_data w polygons names (seq 0 (List.length polygons))
                       kml_text ;;
  let filtered := filtered_df flights_df sat_time in
  let flights_lat := map latitude filtered in
  let flights_lon := map longitude filtered in
  kml_text <- flight_data w radius_in_mn sat_lat sat_lon sat_radius
                          flights_lat flights_lon
                          (seq 0 (List.length flights_lat)) kml_text ;;
  let kml_text := kml_text +++ "</Document>" +++ nl in
  let kml_text := kml_text +++ "</kml>" +++ nl in
  _ <- writeKML kml_text ;;
  emit FileClose.

Definition main (w : World) (argv : list string) : M unit :=
  checked <- initial_checks w argv ;;
  process w argv checked.

End Kml.

(* ================================================================== *)
(** ** The specification's vocabulary *)

Inductive Unit := NauticalMiles | Kilometers.

Record CoverageSpec := mkCoverageSpec {
  center : Q * Q;
  radius : Z;
  unit : Unit
}.

(** The unit flag as the scripts hold it. *)
Definition radius_in_mn_of (u : Unit) : bool :=
  match u with NauticalMiles => true | Kilometers => false end.

(** [distance(a, b, unit)] of the specification: the reading of the
    great-circle distance in the selected unit. *)
Definition distance (w : World) (a b : Q * Q) (u : Unit) : Q :=
  match u with
  | NauticalMiles => Distance.nm (great_circle w a b)
  | Kilometers => Distance.km (great_circle w a b)
  end.

Definition position (r : Row) : Q * Q := (latitude r, longitude r).

(** The acceptance test of the specification: [d < radius]. *)
Definition within (w : World) (c : CoverageSpec) (r : Row) : bool :=
  Qlt_bool (distance w (center c) (position r) (unit c)) (inject_Z (radius c)).

(* ================================================================== *)
(** ** A sample world, for running the scripts on concrete inputs *)

Module Sample.

Fixpoint last_ext (s : string) : option string :=
  match s with
  | EmptyString => None
  | String c s' =>
      match last_ext s' with
      | Some e => Some e
      | None => if Ascii.eqb c "." then Some s else None
      end
  end.

Definition splitext (p : string) : string * string :=
  match last_ext p with
  | Some e => (substring 0 (String.length p - String.length e) p, e)
  | None => (p, "")
  end.

(** Reads decimal literals such as [123], [-7.25] and [1000.5]. *)
Definition py_float (s : string) : option Q :=
  match split "." s with
  | [a] => option_map inject_Z (py_int a)
  | [a; b] =>
      match py_int a, PyInt.digits b 0%Z false with
      | Some x, Some y =>
          let frac := Qmake y (Pos.pow 10 (Pos.of_nat (String.length b))) in
          Some (Qred (if contains_char "-" a then inject_Z x - frac
                      else inject_Z x + frac))
      | _, _ => None
      end
  | _ => None
  end.

(** Prints whole numbers the way Python prints a float. *)
Definition str_float (q : Q) : string :=
  match Qden q with
  | xH => str_int (Qnum q) +++ ".0"
  | d => str_int (Qnum q) +++ "/" +++ str_int (Zpos d)
  end.

(** About 111 km per degree, along the grid. *)
Definition great_circle (a b : Q * Q) : Q :=
  111 * (Qabs (fst a - fst b) + Qabs (snd a - snd b)).

(** Two flights at noon, one at (10, 20) and one some 2000 km east of
    it, and one flight a minute later. *)
Definition flights : list Row :=
  [ mkRow "12:00:00" 10 20; mkRow "12:00:00" 10 38; mkRow "12:01:00" 10 20 ].

Definition firs : list Feature :=
  [ mkFeature [[ [0; 0]; [0; 1]; [1; 1]; [1; 0] ]]
              [("FIRname", PStr "TEST"); ("area", PNum 5)] ].

Definition world : World :=
  mkWorld (fun _ => true) splitext py_float str_float
          (fun _ => flights) (fun _ => firs) great_circle.

(** The same world with a FIR that has no [FIRname]. *)
Definition world_unnamed_fir : World :=
  mkWorld (fun _ => true) splitext py_float str_float
          (fun _ => flights)
          (fun _ => firs ++ [ mkFeature [[ [2; 2]; [2; 3]; [3; 3] ]]
                                        [("area", PNum 7)] ])
          great_circle.

(** The same world with a FIR whose geometry has no ring. *)
Definition world_ringless_fir : World :=
  mkWorld (fun _ => true) splitext py_float str_float
          (fun _ => flights)
          (fun _ => firs ++ [ mkFeature [] [("FIRname", PStr "VOID")] ])
          great_circle.

Definition filter_argv (sat_time rad : string) : list string :=
  ["flights_one_sat_filter.py"; "flights.csv"; "-lat"; "10"; "-lon"; "20";
   "-time"; sat_time; "-rad"; rad; "-km"].

Definition kml_argv (output sat_time rad : string) : list string :=
  ["flights_within_satcov_kml.py"; "firs.geojson"; "flights.csv"; output;
   "-lat"; "10"; "-lon"; "20"; "-time"; sat_time; "-rad"; rad; "-km"].

End Sample.

(* ================================================================== *)
(** * Vocabulary of the statements and proofs *)

(** ** The test of the loops *)

(** The [if]/[elif] test that both loops run, as a function of the row
    whose latitude and longitude the loop has read at its index. *)
Definition decision (w : World) (radius_in_mn : bool) (sat_lat sat_lon : Q)
    (sat_radius : Z) (row : Row) : bool :=
  let sat_pos := (sat_lat, sat_lon) in
  let flight_pos := (latitude row, longitude row) in
  if radius_in_mn &&
     Qlt_bool (Distance.nm (great_circle w sat_pos flight_pos))
              (inject_Z sat_radius)
  then true
  else if Qlt_bool (Distance.km (great_circle w sat_pos flight_pos))
                   (inject_Z sat_radius)
  then true
  else false.

(** The row read at an index beyond the table (never reached by the
    loops, which stay below the length). *)
Definition row0 : Row := mkRow "" 0 0.

(** The marker of a row, as one chunk written to the file. *)
Definition marker (w : World) (row : Row) : event :=
  FileWrite (Kml.flight_placemark w (position row) "").

(** ** Order and instants *)

(** [l1] is [l2] with some elements left out, the others in place. *)
Inductive subsequence {A : Type} : list A -> list A -> Prop :=
| sub_nil : subsequence [] []
| sub_keep (x : A) (l1 l2 : list A) :
    subsequence l1 l2 -> subsequence (x :: l1) (x :: l2)
| sub_skip (x : A) (l1 l2 : list A) :
    subsequence l1 l2 -> subsequence l1 (x :: l2).

(** The instants that occur in a table, each once. *)
Definition instants (rows : list Row) : list string :=
  nodup string_dec (map time_instant rows).

(** ** Reading a marker back *)

(** [s] without its first [n] characters. *)
Fixpoint skip (n : nat) (s : string) : string :=
  match n, s with
  | S n', String _ s' => skip n' s'
  | _, _ => s
  end.

(** Whether [s] begins with [p], by recursion on [p]. *)
Fixpoint has_prefix (p s : string) {struct p} : bool :=
  match p with
  | EmptyString => true
  | String a p' =>
      match s with
      | EmptyString => false
      | String b s' => Ascii.eqb a b && has_prefix p' s'
      end
  end.

(** The text that follows the first occurrence of [tag]. *)
Fixpoint after_tag (tag s : string) : option string :=
  if has_prefix tag s then Some (skip (String.length tag) s)
  else match s with
       | EmptyString => None
       | String _ s' => after_tag tag s'
       end.

(** The text before the first [c]. *)
Fixpoint until_char (c : ascii) (s : string) : string :=
  match s with
  | EmptyString => EmptyString
  | String d s' => if Ascii.eqb d c then EmptyString
                   else String d (until_char c s')
  end.

(** The content of the first [<coordinates>] element. *)
Definition marker_coordinates (placemark : string) : option string :=
  option_map (until_char "<") (after_tag "<coordinates>" placemark).

(** The position a KML reader finds in a point placemark: the
    coordinates are longitude, latitude, altitude; the result is
    [(latitude, longitude)]. *)
Definition marker_position (w : World) (placemark : string)
  : option (Q * Q) :=
  match marker_coordinates placemark with
  | Some text =>
      match split "," text with
      | [lon; lat; _] =>
          match py_float w lon, py_float w lat with
          | Some x, Some y => Some (y, x)
          | _, _ => None
          end
      | _ => None
      end
  | None => None
  end.

(** A float whose text has no comma and no angle bracket and reads back
    as itself. *)
Definition readable (w : World) (x : Q) : Prop :=
  contains_char "," (str_float w x) = false
  /\ contains_char "<" (str_float w x) = false
  /\ py_float w (str_float w x) = Some x.

(** ** Decimal literals *)

(** The character of a decimal digit, and the text of a run of digits. *)
Definition digit_char (d : nat) : ascii := ascii_of_nat (48 + d).

Fixpoint digits_text (ds : list nat) : string :=
  match ds with
  | [] => EmptyString
  | d :: ds' => String (digit_char d) (digits_text ds')
  end.

(** The number a run of digits denotes, most significant digit first. *)
Definition digits_value (ds : list nat) (acc : Z) : Z :=
  fold_left (fun a d => (10 * a + Z.of_nat d)%Z) ds acc.

(** An optional minus sign and a run of decimal digits. *)
Definition int_literal (negative : bool) (ds : list nat) : string :=
  (if negative then "-" else "") +++ digits_text ds.

Definition int_literal_value (negative : bool) (ds : list nat) : Z :=
  if negative then (- digits_value ds 0)%Z else digits_value ds 0.

(** No character of [s] is one that [int] strips. *)
Fixpoint no_space (s : string) : bool :=
  match s with
  | EmptyString => true
  | String c s' => negb (is_space c) && no_space s'
  end.

(** ** The loop over the FIRs *)

(** [feature.geometry.coordinates[0]] of a feature that has a ring. *)
Definition first_ring (f : Feature) : list (list Q) := hd [] (coordinates f).

(** A run that starts with the events [t0] and goes on as [m]. *)
Definition prepend {A} (t0 : list event) (m : M A) : M A :=
  (t0 ++ trace m, outcome m).

(** The loop over the FIRs, by recursion on the features. *)
Fixpoint fir_features (w : World) (fs : list Feature) (kml_text : string)
  : M string :=
  match fs with
  | [] => ret kml_text
  | f :: fs' =>
      kml_text <- Kml.fir_placemark w (first_ring f) (properties f)
                                    kml_text ;;
      fir_features w fs' kml_text
  end.

(** The chunks of the FIRs that are written. *)
Definition fir_chunks (w : World) (fs : list Feature) : list string :=
  flat_map (fun f => writes (trace (Kml.fir_placemark w (first_ring f)
                                      (properties f) "")))
           fs.

(** The entry of the feature is built without an exception. *)
Definition fir_written (w : World) (f : Feature) : Prop :=
  exists s, outcome (Kml.fir_placemark w (first_ring f) (properties f) "")
            = inr s.

(** ** Runs that only print *)

(** Every event of the run is a printed line. *)
Definition quiet {A} (m : M A) : Prop :=
  Forall (fun ev => exists text, ev = Print text) (trace m).

(** The two lines every refusal of the command line ends with, and the
    end of the run. *)
Definition refusal {A} (message help_manual : string) : M A :=
  ([Print message; Print help_manual], inl SystemExit).

(** ** Text of the entries *)

(** The pieces of a text, one after the other. *)
Fixpoint join (l : list string) : string :=
  match l with
  | [] => EmptyString
  | x :: l' => x +++ join l'
  end.

(** One attribute of a FIR as the loop of 2.4.3 writes it. *)
Definition data_entry (w : World) (kv : string * PropValue) : string :=
  tab +++ tab +++ tab +++ "<Data name=" +++ dq +++ fst kv +++ dq +++ ">"
      +++ nl +++
  tab +++ tab +++ tab +++ tab +++ "<value>" +++ str_value w (snd kv)
      +++ "</value>" +++ nl +++
  tab +++ tab +++ tab +++ "</Data>" +++ nl.

(** One border point as the loop of 2.4.4 writes it. *)
Definition vertex_text (w : World) (polygon : list Q) : string :=
  str_float w (nth 0 polygon 0) +++ "," +++ str_float w (nth 1 polygon 0)
            +++ ",0 ".

(** The point has the two coordinates the loop reads. *)
Definition has_lon_lat (polygon : list Q) : bool :=
  (2 <=? List.length polygon)%nat.

(** The entry of a FIR named [FIRname]: what 2.4.1 to 2.4.5 append. *)
Definition fir_entry (w : World) (FIRname : string)
    (polygons_n : list (list Q)) (names_n : list (string * PropValue))
  : string :=
  tab +++ "<Placemark>" +++ nl +++
  tab +++ tab +++ "<name>" +++ FIRname +++ "</name>" +++ nl +++
  tab +++ tab +++ "<styleUrl>#FIR</styleUrl>" +++ nl +++
  tab +++ tab +++ "<ExtendedData>" +++ nl +++
  join (map (data_entry w) names_n) +++
  tab +++ tab +++ "</ExtendedData>" +++ nl +++
  tab +++ tab +++ "<Polygon>" +++ nl +++
  tab +++ tab +++ tab +++ "<outerBoundaryIs>" +++ nl +++
  tab +++ tab +++ tab +++ tab +++ "<LinearRing>" +++ nl +++
  tab +++ tab +++ tab +++ tab +++ tab +++ "<coordinates>" +++ nl +++
  tab +++ tab +++ tab +++ tab +++ tab +++ tab +++
  join (map (vertex_text w) polygons_n) +++
  nl +++ tab +++ tab +++ tab +++ tab +++ tab +++ "</coordinates>" +++ nl +++
  tab +++ tab +++ tab +++ tab +++ "</LinearRing>" +++ nl +++
  tab +++ tab +++ tab +++ "</outerBoundaryIs>" +++ nl +++
  tab +++ tab +++ "</Polygon>" +++ nl +++
  tab +++ "</Placemark>" +++ nl.


(** The rows of a slice that pass the test, in order. *)
Definition accepted_rows (w : World) (radius_in_mn : bool)
    (sat_lat sat_lon : Q) (sat_radius : Z) (slice : list Row) : list Row :=
  filter (decision w radius_in_mn sat_lat sat_lon sat_radius) slice.


(** A world like the sample one, with a second FIR one of whose border
    points has a single coordinate. *)
Definition world_short_point : World :=
  mkWorld (fun _ => true) Sample.splitext Sample.py_float Sample.str_float
          (fun _ => Sample.flights)
          (fun _ => Sample.firs
                    ++ [ mkFeature [[ [2; 2]; [3] ]]
                                   [("FIRname", PStr "SHORT")] ])
          Sample.great_circle.

(* ================================================================== *)
(** * Properties *)

(** ** The text helpers on examples *)

Example py_int_1000 : py_int "1000" = Some 1000%Z.
Proof. reflexivity. Qed.
Example py_int_neg : py_int " -5 " = Some (-5)%Z.
Proof. reflexivity. Qed.
Example py_int_underscore : py_int "1_000" = Some 1000%Z.
Proof. reflexivity. Qed.
Example py_int_float_text : py_int "1000.5" = None.
Proof. reflexivity. Qed.
Example py_int_empty : py_int "" = None.
Proof. reflexivity. Qed.
Example split_time : split ":" "25:61:00" = ["25"; "61"; "00"].
Proof. reflexivity. Qed.
Example split_empty : split ":" "" = [""].
Proof. reflexivity. Qed.

(** ** Laws of the effect monad *)

Lemma bind_ret {A B} (a : A) (f : A -> M B) : bind (ret a) f = f a.
Proof. unfold bind, ret. destruct (f a). reflexivity. Qed.

Lemma bind_raise {A B} (e : exn) (f : A -> M B) :
  bind (raise e) f = raise e.
Proof. reflexivity. Qed.

Lemma bind_emit {B} (ev : event) (f : Datatypes.unit -> M B) :
  bind (emit ev) f = (ev :: trace (f tt), outcome (f tt)).
Proof. unfold bind, emit, trace, outcome. destruct (f tt). reflexivity. Qed.

Lemma bind_print {B} (text : string) (f : Datatypes.unit -> M B) :
  bind (print text) f = (Print text :: trace (f tt), outcome (f tt)).
Proof. apply bind_emit. Qed.

Lemma bind_assoc {A B C} (m : M A) (f : A -> M B) (g : B -> M C) :
  bind (bind m f) g = bind m (fun a => bind (f a) g).
Proof.
  destruct m as [t [e|a]]; [reflexivity|]. unfold bind.
  destruct (f a) as [t1 [e1|b]]; [reflexivity|].
  destruct (g b) as [t2 r2]. rewrite app_assoc. reflexivity.
Qed.

Lemma writeKML_bind {B} (kml_text : string) (f : string -> M B) :
  bind (Kml.writeKML kml_text) f
  = (FileWrite kml_text :: trace (f ""), outcome (f "")).
Proof.
  unfold Kml.writeKML. rewrite bind_assoc, bind_emit, bind_ret. reflexivity.
Qed.

(** ** Arithmetic of the acceptance test *)

Lemma Qlt_bool_iff (x y : Q) : Qlt_bool x y = true <-> x < y.
Proof.
  unfold Qlt_bool. rewrite negb_true_iff. split.
  - intros H. apply Qnot_le_lt. intros Hle.
    apply Qle_bool_iff in Hle. congruence.
  - intros H. destruct (Qle_bool y x) eqn:E; [|reflexivity].
    apply Qle_bool_iff in E. exfalso. exact (Qlt_not_le _ _ H E).
Qed.

Lemma Qlt_bool_false_iff (x y : Q) : Qlt_bool x y = false <-> y <= x.
Proof.
  unfold Qlt_bool. rewrite negb_false_iff. apply Qle_bool_iff.
Qed.

(** A length in nautical miles is a smaller number than in kilometers. *)
Lemma nm_le_km (d : Q) : 0 <= d -> Distance.nm d <= Distance.km d.
Proof.
  destruct d as [n p]. unfold Distance.nm, Distance.km, Distance.km_per_nm.
  unfold Qle, Qdiv, Qmult, Qinv. simpl. intros H. nia.
Qed.

Lemma km_of_nm (d : Q) : Distance.nm d * Distance.km_per_nm == Distance.km d.
Proof.
  unfold Distance.nm, Distance.km, Distance.km_per_nm. field.
Qed.

(** With a non-negative distance the fall-through of the [-nm] branch
    into the kilometer test never accepts: the two-branch test is the
    single comparison in the selected unit. *)
Lemma decision_within (w : World) (c : CoverageSpec) (row : Row) :
  0 <= great_circle w (center c) (position row) ->
  decision w (radius_in_mn_of (unit c)) (fst (center c)) (snd (center c))
           (radius c) row
  = within w c row.
Proof.
  intros Hpos. unfold decision, within, distance, position in *.
  destruct c as [[la lo] r u]; simpl in *.
  destruct u; simpl.
  - destruct (Qlt_bool (Distance.nm _) _) eqn:Enm; [reflexivity|].
    destruct (Qlt_bool (Distance.km _) _) eqn:Ekm; [|reflexivity].
    apply Qlt_bool_false_iff in Enm. apply Qlt_bool_iff in Ekm.
    exfalso. apply (Qlt_irrefl (inject_Z r)).
    eapply Qle_lt_trans; [exact Enm|].
    eapply Qle_lt_trans; [apply nm_le_km; exact Hpos|exact Ekm].
  - destruct (Qlt_bool (Distance.km _) _); reflexivity.
Qed.

(** ** The index loops read the rows in order *)

Lemma nth_latitude (l : list Row) (i : nat) :
  nth i (map latitude l) 0 = latitude (nth i l row0).
Proof. change 0 with (latitude row0). apply map_nth. Qed.

Lemma nth_longitude (l : list Row) (i : nat) :
  nth i (map longitude l) 0 = longitude (nth i l row0).
Proof. change 0 with (longitude row0). apply map_nth. Qed.

Lemma range_rows (l : list Row) :
  map (fun i => nth i l row0) (seq 0 (List.length l)) = l.
Proof.
  induction l as [|r l IH]; simpl; [reflexivity|].
  f_equal. rewrite <- seq_shift, map_map. exact IH.
Qed.

Lemma filter_map_comm {A B} (g : A -> B) (P : B -> bool) (l : list A) :
  filter P (map g l) = map g (filter (fun a => P (g a)) l).
Proof.
  induction l as [|a l IH]; simpl; [reflexivity|].
  destruct (P (g a)); simpl; congruence.
Qed.

Lemma range_filter {B} (f : Row -> B) (P : Row -> bool) (l : list Row) :
  map (fun i => f (nth i l row0))
      (filter (fun i => P (nth i l row0)) (seq 0 (List.length l)))
  = map f (filter P l).
Proof.
  transitivity
    (map f (filter P (map (fun i => nth i l row0) (seq 0 (List.length l))))).
  - rewrite filter_map_comm, map_map. reflexivity.
  - rewrite range_rows. reflexivity.
Qed.

Lemma flight_accepted_decision w b la lo r (l : list Row) (i : nat) :
  Filter.flight_accepted w b la lo r (map latitude l) (map longitude l) i
  = decision w b la lo r (nth i l row0).
Proof.
  unfold Filter.flight_accepted, decision.
  rewrite nth_latitude, nth_longitude. reflexivity.
Qed.

Lemma count_fold (P : nat -> bool) (idx : list nat) (c0 : Z) :
  fold_left (fun count i => if P i then (count + 1)%Z else count) idx c0
  = (c0 + Z.of_nat (List.length (filter P idx)))%Z.
Proof.
  revert c0. induction idx as [|i idx IH]; intros c0; simpl.
  - lia.
  - rewrite IH. destruct (P i); simpl List.length; lia.
Qed.

(** The counting loop of the filter script counts the rows that pass
    the test. *)
Lemma aircraft_count_filter w b la lo r (l : list Row) :
  Filter.aircraft_count w b la lo r (map latitude l) (map longitude l)
  = Z.of_nat (List.length (filter (decision w b la lo r) l)).
Proof.
  unfold Filter.aircraft_count. rewrite count_fold, length_map. simpl.
  f_equal.
  rewrite <- (length_map (fun i => nth i l row0)).
  rewrite (filter_ext _ (fun i => decision w b la lo r (nth i l row0)))
    by (intros i; apply flight_accepted_decision).
  rewrite (range_filter (fun x => x)), map_id. reflexivity.
Qed.

Lemma flight_data_indices w b la lo r (l : list Row) (idx : list nat) :
  Kml.flight_data w b la lo r (map latitude l) (map longitude l) idx ""
  = (map (fun i => marker w (nth i l row0))
         (filter (fun i => decision w b la lo r (nth i l row0)) idx),
     inr "").
Proof.
  induction idx as [|i idx IH]; [reflexivity|].
  cbn [Kml.flight_data]. rewrite !nth_latitude, !nth_longitude.
  cbn [filter]. fold (decision w b la lo r (nth i l row0)).
  destruct (decision w b la lo r (nth i l row0)).
  - rewrite writeKML_bind, IH. reflexivity.
  - exact IH.
Qed.

(** The emitting loop of the KML script writes one marker per row that
    passes the test, in order, and ends with an empty buffer. *)
Lemma flight_data_filter w b la lo r (l : list Row) :
  Kml.flight_data w b la lo r (map latitude l) (map longitude l)
                  (seq 0 (List.length (map latitude l))) ""
  = (map (marker w) (filter (decision w b la lo r) l), inr "").
Proof.
  rewrite flight_data_indices, length_map, range_filter. reflexivity.
Qed.

Lemma within_iff (w : World) (c : CoverageSpec) (row : Row) :
  within w c row = true
  <-> distance w (center c) (position row) (unit c) < inject_Z (radius c).
Proof. apply Qlt_bool_iff. Qed.

Lemma sample_great_circle_nonneg (a b : Q * Q) :
  0 <= great_circle Sample.world a b.
Proof.
  simpl. unfold Sample.great_circle.
  apply Qmult_le_0_compat; [discriminate|].
  apply (Qplus_le_compat 0 _ 0 _); apply Qabs_nonneg.
Qed.

(** ** C1: the classifier is the strict comparison in the selected unit *)

(** C1.  For every slice and every coverage specification, in nautical
    miles or in kilometers, a record is accepted by the loop of either
    script if and only if its great-circle distance to the centre, read in
    the selected unit, is strictly less than the radius; a record at
    exactly the radius is rejected.  The filter script counts exactly these
    records and the KML script writes exactly their markers.  The distance
    is assumed non-negative, as a distance is. *)
Theorem classifier_strict_in_selected_unit
    (w : World) (Hdist : forall a b, 0 <= great_circle w a b)
    (slice : list Row) (c : CoverageSpec) :
  (forall i, (i < List.length slice)%nat ->
     (Filter.flight_accepted w (radius_in_mn_of (unit c))
        (fst (center c)) (snd (center c)) (radius c)
        (map latitude slice) (map longitude slice) i = true
      <-> distance w (center c) (position (nth i slice row0)) (unit c)
          < inject_Z (radius c))
     /\ (distance w (center c) (position (nth i slice row0)) (unit c)
         == inject_Z (radius c) ->
         Filter.flight_accepted w (radius_in_mn_of (unit c))
           (fst (center c)) (snd (center c)) (radius c)
           (map latitude slice) (map longitude slice) i = false))
  /\ Filter.aircraft_count w (radius_in_mn_of (unit c))
       (fst (center c)) (snd (center c)) (radius c)
       (map latitude slice) (map longitude slice)
     = Z.of_nat (List.length (filter (within w c) slice))
  /\ Kml.flight_data w (radius_in_mn_of (unit c))
       (fst (center c)) (snd (center c)) (radius c)
       (map latitude slice) (map longitude slice)
       (seq 0 (List.length (map latitude slice))) ""
     = (map (marker w) (filter (within w c) slice), inr "")
  /\ (forall row,
        (within w c row = true
         <-> distance w (center c) (position row) (unit c)
             < inject_Z (radius c))
        /\ (distance w (center c) (position row) (unit c)
            == inject_Z (radius c) -> within w c row = false)).
Proof.
  assert (Hext : forall row,
             decision w (radius_in_mn_of (unit c)) (fst (center c))
                      (snd (center c)) (radius c) row = within w c row)
    by (intros row; apply decision_within, Hdist).
  assert (Hedge : forall row,
             distance w (center c) (position row) (unit c)
             == inject_Z (radius c) -> within w c row = false).
  { intros row Heq. apply Qlt_bool_false_iff. rewrite Heq. apply Qle_refl. }
  repeat split.
  - rewrite flight_accepted_decision, Hext. apply within_iff.
  - rewrite flight_accepted_decision, Hext. apply within_iff.
  - intros Heq. rewrite flight_accepted_decision, Hext. now apply Hedge.
  - rewrite aircraft_count_filter.
    now rewrite (filter_ext _ _ Hext).
  - rewrite flight_data_filter.
    now rewrite (filter_ext _ _ Hext).
  - apply within_iff.
  - apply within_iff.
  - apply Hedge.
Qed.

Lemma classifier_strict_in_selected_unit_witness :
  (forall a b, 0 <= great_circle Sample.world a b)
  /\ Filter.aircraft_count Sample.world false 10 20 1000
       (map latitude (Filter.filtered_df Sample.flights "12:00:00"))
       (map longitude (Filter.filtered_df Sample.flights "12:00:00"))
     = Z.of_nat (List.length
         (filter (within Sample.world (mkCoverageSpec (10, 20) 1000 Kilometers))
                 (Filter.filtered_df Sample.flights "12:00:00"))).
Proof.
  split; [exact sample_great_circle_nonneg|].
  exact (proj1 (proj2 (classifier_strict_in_selected_unit
                         Sample.world sample_great_circle_nonneg
                         (Filter.filtered_df Sample.flights "12:00:00")
                         (mkCoverageSpec (10, 20) 1000 Kilometers)))).
Defined.

(** ** C10: the two scripts accept the same records *)

(** C10.  On the same slice, centre, radius and unit, the count computed
    by the filter script is the number of markers the KML script writes,
    and both come from one list of accepted records: the rows that pass
    the test, in slice order. *)
Theorem scripts_accept_same_records
    (w : World) (radius_in_mn : bool) (sat_lat sat_lon : Q) (sat_radius : Z)
    (slice : list Row) :
  exists accepted : list Row,
    accepted = filter (decision w radius_in_mn sat_lat sat_lon sat_radius)
                      slice
    /\ Filter.aircraft_count w radius_in_mn sat_lat sat_lon sat_radius
         (map latitude slice) (map longitude slice)
       = Z.of_nat (List.length accepted)
    /\ trace (Kml.flight_data w radius_in_mn sat_lat sat_lon sat_radius
                (map latitude slice) (map longitude slice)
                (seq 0 (List.length (map latitude slice))) "")
       = map (marker w) accepted
    /\ Filter.aircraft_count w radius_in_mn sat_lat sat_lon sat_radius
         (map latitude slice) (map longitude slice)
       = Z.of_nat (List.length
           (trace (Kml.flight_data w radius_in_mn sat_lat sat_lon sat_radius
                     (map latitude slice) (map longitude slice)
                     (seq 0 (List.length (map latitude slice))) ""))).
Proof.
  eexists. split; [reflexivity|].
  rewrite aircraft_count_filter, flight_data_filter. cbn [trace fst].
  rewrite length_map. repeat split.
Qed.

(** ** C9: the two unit readings *)

Lemma nm_lt_iff_km_lt (d : Q) (rn rk : Z) :
  inject_Z rk == inject_Z rn * Distance.km_per_nm ->
  (Distance.nm d < inject_Z rn <-> Distance.km d < inject_Z rk).
Proof.
  intros Hr. rewrite Hr, <- (km_of_nm d).
  assert (Hk : 0 < Distance.km_per_nm) by reflexivity.
  split; intros H.
  - apply Qmult_lt_compat_r; assumption.
  - apply (Qmult_lt_r _ _ _ Hk). exact H.
Qed.

(** C9.  For every pair of points the kilometer reading of the distance
    is the nautical-mile reading times 1.852, both being readings of one
    computed length; hence a radius given in nautical miles and the same
    radius given in kilometers accept the same records.  (Floats are exact
    rationals here, so the tolerance of the claim is zero.) *)
Theorem unit_readings_consistent
    (w : World) (Hdist : forall a b, 0 <= great_circle w a b)
    (a b : Q * Q) (sat_lat sat_lon : Q) (rn rk : Z)
    (Hradius : inject_Z rk == inject_Z rn * (1852 # 1000))
    (slice : list Row) :
  distance w a b Kilometers == distance w a b NauticalMiles * (1852 # 1000)
  /\ (forall row,
        decision w true sat_lat sat_lon rn row
        = decision w false sat_lat sat_lon rk row)
  /\ Filter.aircraft_count w true sat_lat sat_lon rn
       (map latitude slice) (map longitude slice)
     = Filter.aircraft_count w false sat_lat sat_lon rk
         (map latitude slice) (map longitude slice).
Proof.
  assert (Hrow : forall row,
             decision w true sat_lat sat_lon rn row
             = decision w false sat_lat sat_lon rk row).
  { intros row.
    pose proof (decision_within w (mkCoverageSpec (sat_lat, sat_lon) rn
                                                  NauticalMiles) row
                                (Hdist _ _)) as Hn.
    pose proof (decision_within w (mkCoverageSpec (sat_lat, sat_lon) rk
                                                  Kilometers) row
                                (Hdist _ _)) as Hk.
    cbn [radius_in_mn_of unit center radius fst snd] in Hn, Hk.
    rewrite Hn, Hk.
    unfold within, distance; cbn [center radius unit].
    apply eq_true_iff_eq. rewrite !Qlt_bool_iff.
    apply nm_lt_iff_km_lt. exact Hradius. }
  split; [|split].
  - unfold distance. symmetry. apply km_of_nm.
  - exact Hrow.
  - rewrite !aircraft_count_filter. now rewrite (filter_ext _ _ Hrow).
Qed.

Lemma unit_readings_consistent_witness :
  (forall a b, 0 <= great_circle Sample.world a b)
  /\ inject_Z 463 == inject_Z 250 * (1852 # 1000)
  /\ Filter.aircraft_count Sample.world true 10 20 250
       (map latitude Sample.flights) (map longitude Sample.flights)
     = Filter.aircraft_count Sample.world false 10 20 463
         (map latitude Sample.flights) (map longitude Sample.flights).
Proof.
  split; [exact sample_great_circle_nonneg|].
  split; [reflexivity|].
  exact (proj2 (proj2 (unit_readings_consistent
                         Sample.world sample_great_circle_nonneg
                         (0, 0) (0, 0) 10 20 250 463 eq_refl
                         Sample.flights))).
Defined.

(** ** C8: the time slice *)

Lemma filtered_df_same (rows : list Row) (t : string) :
  Filter.filtered_df rows t = Kml.filtered_df rows t.
Proof. reflexivity. Qed.

Lemma filtered_df_In (rows : list Row) (t : string) (r : Row) :
  In r (Filter.filtered_df rows t) <-> In r rows /\ time_instant r = t.
Proof.
  unfold Filter.filtered_df. rewrite filter_In, String.eqb_eq. reflexivity.
Qed.

Lemma filtered_df_subsequence (rows : list Row) (t : string) :
  subsequence (Filter.filtered_df rows t) rows.
Proof.
  induction rows as [|r rows IH]; simpl; [constructor|].
  destruct (String.eqb (time_instant r) t); now constructor.
Qed.

Lemma filtered_df_length (rows : list Row) (t : string) :
  List.length (Filter.filtered_df rows t)
  = count_occ string_dec (map time_instant rows) t.
Proof.
  induction rows as [|r rows IH]; simpl; [reflexivity|].
  destruct (String.eqb_spec (time_instant r) t) as [E|E];
    destruct (string_dec (time_instant r) t); try contradiction;
    simpl; congruence.
Qed.

Lemma slices_of_no_rows (ts : list string) :
  List.concat (map (Filter.filtered_df []) ts) = [].
Proof. induction ts; simpl; auto. Qed.

Lemma slices_skip_row (r : Row) (rows : list Row) (ts : list string) :
  ~ In (time_instant r) ts ->
  map (Filter.filtered_df (r :: rows)) ts = map (Filter.filtered_df rows) ts.
Proof.
  intros Hnot. apply map_ext_in. intros t Ht. simpl.
  destruct (String.eqb_spec (time_instant r) t); [|reflexivity].
  subst. contradiction.
Qed.

Lemma slices_take_row (r : Row) (rows : list Row) (ts : list string) :
  NoDup ts -> In (time_instant r) ts ->
  Permutation (List.concat (map (Filter.filtered_df (r :: rows)) ts))
              (r :: List.concat (map (Filter.filtered_df rows) ts)).
Proof.
  induction ts as [|t ts IH]; intros Hnd Hin; [contradiction|].
  inversion Hnd as [|? ? Hnot Hnd']; subst.
  cbn [map List.concat]. simpl Filter.filtered_df at 1.
  destruct (String.eqb_spec (time_instant r) t) as [E|E].
  - subst t. rewrite slices_skip_row by assumption. reflexivity.
  - destruct Hin as [Hin|Hin]; [congruence|].
    rewrite (IH Hnd' Hin). symmetry. apply Permutation_middle.
Qed.

Lemma slices_partition (rows : list Row) (ts : list string) :
  NoDup ts -> (forall r, In r rows -> In (time_instant r) ts) ->
  Permutation (List.concat (map (Filter.filtered_df rows) ts)) rows.
Proof.
  intros Hnd. induction rows as [|r rows IH]; intros Hall.
  - rewrite slices_of_no_rows. constructor.
  - rewrite slices_take_row; [|assumption|apply Hall; now left].
    constructor. apply IH. intros r' Hr'. apply Hall. now right.
Qed.

(** C8.  The slice for an instant holds exactly the rows whose first
    column equals it, in their original order and as often as they occur;
    both scripts select it the same way.  A row lies in the slices of at
    most one instant, the slices over the instants of the table make up
    the whole table, and an empty slice gives a zero count and no marker,
    without error. *)
Theorem time_slice_exact (w : World) (rows : list Row) (t : string) :
  Filter.filtered_df rows t = Kml.filtered_df rows t
  /\ (forall r, In r (Filter.filtered_df rows t)
                <-> In r rows /\ time_instant r = t)
  /\ subsequence (Filter.filtered_df rows t) rows
  /\ List.length (Filter.filtered_df rows t)
     = count_occ string_dec (map time_instant rows) t
  /\ (forall t' r, t <> t' -> In r (Filter.filtered_df rows t) ->
                   ~ In r (Filter.filtered_df rows t'))
  /\ Permutation (List.concat (map (Filter.filtered_df rows) (instants rows))) rows
  /\ (Filter.filtered_df rows t = [] ->
      forall radius_in_mn sat_lat sat_lon sat_radius,
        Filter.aircraft_count w radius_in_mn sat_lat sat_lon sat_radius
          (map latitude (Filter.filtered_df rows t))
          (map longitude (Filter.filtered_df rows t)) = 0%Z
        /\ Kml.flight_data w radius_in_mn sat_lat sat_lon sat_radius
             (map latitude (Kml.filtered_df rows t))
             (map longitude (Kml.filtered_df rows t))
             (seq 0 (List.length (map latitude (Kml.filtered_df rows t)))) ""
           = ([], inr "")).
Proof.
  split; [reflexivity|].
  split; [apply filtered_df_In|].
  split; [apply filtered_df_subsequence|].
  split; [apply filtered_df_length|].
  split; [|split].
  - intros t' r Hne H1 H2.
    apply filtered_df_In in H1. apply filtered_df_In in H2.
    destruct H1 as [_ H1]. destruct H2 as [_ H2]. congruence.
  - apply slices_partition.
    + apply NoDup_nodup.
    + intros r Hr. apply nodup_In. now apply in_map.
  - intros Hempty b la lo rad.
    change (Kml.filtered_df rows t) with (Filter.filtered_df rows t).
    rewrite Hempty. split; reflexivity.
Qed.

Lemma time_slice_exact_witness :
  "12:00:00" <> "12:01:00"
  /\ In (mkRow "12:00:00" 10 38) (Filter.filtered_df Sample.flights "12:00:00")
  /\ ~ In (mkRow "12:00:00" 10 38)
          (Filter.filtered_df Sample.flights "12:01:00").
Proof.
  assert (Hne : "12:00:00" <> "12:01:00") by discriminate.
  assert (Hin : In (mkRow "12:00:00" 10 38)
                   (Filter.filtered_df Sample.flights "12:00:00"))
    by (simpl; auto).
  split; [exact Hne|]. split; [exact Hin|].
  exact (proj1 (proj2 (proj2 (proj2 (proj2
           (time_slice_exact Sample.world Sample.flights "12:00:00")))))
         "12:01:00" (mkRow "12:00:00" 10 38) Hne Hin).
Defined.

(** ** C3, C4: the point marker *)

Lemma until_char_app (c : ascii) (a s : string) :
  contains_char c a = false ->
  until_char c (a +++ s) = a +++ until_char c s.
Proof.
  induction a as [|d a IH]; simpl; [reflexivity|].
  intros H. apply orb_false_iff in H. destruct H as [Hd Ha].
  rewrite Hd, IH by assumption. reflexivity.
Qed.

Lemma split_app_sep (c : ascii) (a s : string) :
  contains_char c a = false ->
  split c (a +++ String c s) = a :: split c s.
Proof.
  induction a as [|d a IH]; simpl.
  - intros _. rewrite Ascii.eqb_refl. reflexivity.
  - intros H. apply orb_false_iff in H. destruct H as [Hd Ha].
    rewrite Hd, IH by assumption. reflexivity.
Qed.

Lemma append_assoc (a b c : string) : (a +++ b) +++ c = a +++ b +++ c.
Proof. induction a as [|d a IH]; simpl; congruence. Qed.

(** The marker as one run of text: what precedes the coordinates, the
    two numbers, and what follows them. *)
Lemma flight_placemark_text (w : World) (lat lon : Q) :
  Kml.flight_placemark w (lat, lon) ""
  = (tab +++ "<Placemark>" +++ nl +++
     tab +++ tab +++ "<styleUrl>#Flight</styleUrl>" +++ nl +++
     tab +++ tab +++ "<Point>" +++ nl +++
     tab +++ tab +++ tab +++ "<coordinates>") +++
    str_float w lon +++ "," +++ str_float w lat +++
    (",0</coordinates>s" +++ nl +++
     tab +++ tab +++ "</Point>" +++ nl +++
     tab +++ "</Placemark>" +++ nl).
Proof.
  unfold Kml.flight_placemark. cbn [fst snd].
  rewrite !append_assoc. reflexivity.
Qed.

Lemma flight_placemark_coordinates (w : World) (lat lon : Q) :
  contains_char "<" (str_float w lat) = false ->
  contains_char "<" (str_float w lon) = false ->
  marker_coordinates (Kml.flight_placemark w (lat, lon) "")
  = Some (str_float w lon +++ "," +++ str_float w lat +++ ",0").
Proof.
  intros Hlat Hlon. rewrite flight_placemark_text.
  unfold marker_coordinates. cbn.
  rewrite until_char_app by assumption. cbn.
  rewrite until_char_app by assumption. reflexivity.
Qed.

Lemma flight_placemark_position (w : World) (lat lon : Q) :
  readable w lat -> readable w lon ->
  marker_position w (Kml.flight_placemark w (lat, lon) "") = Some (lat, lon).
Proof.
  intros (Hc1 & Hb1 & Hr1) (Hc2 & Hb2 & Hr2). unfold marker_position.
  rewrite flight_placemark_coordinates by assumption.
  cbn [String.append].
  rewrite split_app_sep by assumption.
  rewrite split_app_sep by assumption.
  cbn. rewrite Hr1, Hr2. reflexivity.
Qed.

(** C3.  For every accepted record the KML script writes a point marker
    whose coordinates are the record's longitude, then its latitude, then
    0; reading the marker back gives the record's own (latitude,
    longitude), not the swapped pair.  The two numbers are assumed to
    print as text without comma or angle bracket that reads back as the
    number. *)
Theorem marker_longitude_first
    (w : World) (radius_in_mn : bool) (sat_lat sat_lon : Q) (sat_radius : Z)
    (slice : list Row) (row : Row)
    (Hin : In row slice)
    (Haccepted : decision w radius_in_mn sat_lat sat_lon sat_radius row = true)
    (Hlat : readable w (latitude row))
    (Hlon : readable w (longitude row)) :
  In (FileWrite (Kml.flight_placemark w (latitude row, longitude row) ""))
     (trace (Kml.flight_data w radius_in_mn sat_lat sat_lon sat_radius
               (map latitude slice) (map longitude slice)
               (seq 0 (List.length (map latitude slice))) ""))
  /\ marker_coordinates
       (Kml.flight_placemark w (latitude row, longitude row) "")
     = Some (str_float w (longitude row) +++ "," +++
             str_float w (latitude row) +++ ",0")
  /\ marker_position w
       (Kml.flight_placemark w (latitude row, longitude row) "")
     = Some (latitude row, longitude row).
Proof.
  split; [|split].
  - rewrite flight_data_filter. cbn [trace fst].
    apply (in_map (marker w)). apply filter_In. now split.
  - destruct Hlat as (_ & Hlat & _), Hlon as (_ & Hlon & _).
    now apply flight_placemark_coordinates.
  - now apply flight_placemark_position.
Qed.

Lemma marker_longitude_first_witness :
  (In (mkRow "12:00:00" 10 20) (Kml.filtered_df Sample.flights "12:00:00")
   /\ decision Sample.world false 10 20 1000 (mkRow "12:00:00" 10 20) = true
   /\ readable Sample.world 10 /\ readable Sample.world 20)
  /\ marker_coordinates (Kml.flight_placemark Sample.world (10, 20) "")
     = Some "20.0,10.0,0"
  /\ marker_position Sample.world
       (Kml.flight_placemark Sample.world (10, 20) "") = Some (10, 20).
Proof.
  assert (H : In (mkRow "12:00:00" 10 20)
                 (Kml.filtered_df Sample.flights "12:00:00")
              /\ decision Sample.world false 10 20 1000
                          (mkRow "12:00:00" 10 20) = true
              /\ readable Sample.world 10 /\ readable Sample.world 20).
  { repeat split; simpl; auto. }
  split; [exact H|].
  destruct H as (Hin & Hacc & Hlat & Hlon).
  exact (proj2 (marker_longitude_first Sample.world false 10 20 1000
                  (Kml.filtered_df Sample.flights "12:00:00")
                  (mkRow "12:00:00" 10 20) Hin Hacc Hlat Hlon)).
Defined.

(** C4.  What the script writes for a marker: after the closing
    coordinates tag comes the letter [s], then the end of the line.  The
    claim asks for the line to end at the tag. *)
Theorem marker_coordinates_trailing_letter (w : World) (lat lon : Q) :
  Kml.flight_placemark w (lat, lon) ""
  = (tab +++ "<Placemark>" +++ nl +++
     tab +++ tab +++ "<styleUrl>#Flight</styleUrl>" +++ nl +++
     tab +++ tab +++ "<Point>" +++ nl +++
     tab +++ tab +++ tab +++ "<coordinates>") +++
    str_float w lon +++ "," +++ str_float w lat +++
    (",0</coordinates>" +++ "s" +++ nl +++
     tab +++ tab +++ "</Point>" +++ nl +++
     tab +++ "</Placemark>" +++ nl)
  /\ after_tag "</coordinates>"
       (Kml.flight_placemark Sample.world (10, 20) "")
     = Some ("s" +++ nl +++ tab +++ tab +++ "</Point>" +++ nl +++
             tab +++ "</Placemark>" +++ nl).
Proof.
  split; [apply flight_placemark_text | reflexivity].
Qed.

(** ** C2: the time check *)

(** Hours and minutes out of range are refused before any file is
    loaded. *)
Example time_25_61_00_refused :
  outcome (Filter.main Sample.world (Sample.filter_argv "25:61:00" "1000"))
  = inl SystemExit
  /\ loaded (trace (Filter.main Sample.world
                      (Sample.filter_argv "25:61:00" "1000"))) = []
  /\ outcome (Kml.main Sample.world
                (Sample.kml_argv "out.kml" "25:61:00" "1000"))
     = inl SystemExit
  /\ loaded (trace (Kml.main Sample.world
                      (Sample.kml_argv "out.kml" "25:61:00" "1000"))) = [].
Proof. repeat split. Qed.

(** C2.  The third range test of the time check reads the minutes field a
    second time, so the seconds field is never looked at: [12:30:99], and
    even [12:30:xx], pass the check, and both scripts go on to load their
    input files and finish normally.  The claim asks for a validation
    error there. *)
Theorem seconds_field_never_checked :
  time_values Filter.help_manual (Sample.filter_argv "12:30:99" "1000")
  = ret "12:30:99"
  /\ time_values Filter.help_manual (Sample.filter_argv "12:30:xx" "1000")
     = ret "12:30:xx"
  /\ outcome (Filter.main Sample.world (Sample.filter_argv "12:30:99" "1000"))
     = inr tt
  /\ loaded (trace (Filter.main Sample.world
                      (Sample.filter_argv "12:30:99" "1000")))
     = ["flights.csv"]
  /\ outcome (Kml.main Sample.world
                (Sample.kml_argv "out.kml" "12:30:99" "1000"))
     = inr tt
  /\ loaded (trace (Kml.main Sample.world
                      (Sample.kml_argv "out.kml" "12:30:99" "1000")))
     = ["firs.geojson"; "flights.csv"].
Proof. repeat split. Qed.

(** ** C6: the output name check *)

(** The sibling checks end the run where they fail. *)
Example flights_file_check_exits :
  outcome (Kml.main Sample.world
             ["flights_within_satcov_kml.py"; "firs.geojson"; "flights.txt";
              "out.kml"; "-lat"; "10"; "-lon"; "20"; "-time"; "12:00:00";
              "-rad"; "1000"; "-km"])
  = inl SystemExit
  /\ loaded (trace (Kml.main Sample.world
             ["flights_within_satcov_kml.py"; "firs.geojson"; "flights.txt";
              "out.kml"; "-lat"; "10"; "-lon"; "20"; "-time"; "12:00:00";
              "-rad"; "1000"; "-km"])) = [].
Proof. repeat split. Qed.

(** C6.  The output name check prints its error and returns: it never
    ends the run.  With the output name [-out.kml] the KML script prints
    the error, then loads both inputs, opens [./-out.kml], writes the
    whole document and finishes normally.  The claim asks for the run to
    end at the failed check. *)
Theorem output_name_check_goes_on :
  (forall argv, outcome (Kml.output_name_check argv) <> inl SystemExit)
  /\ hd_error (printed (trace (Kml.main Sample.world
                 (Sample.kml_argv "-out.kml" "12:00:00" "1000"))))
     = Some (nl +++ "ERROR: output name is not valid")
  /\ loaded (trace (Kml.main Sample.world
                      (Sample.kml_argv "-out.kml" "12:00:00" "1000")))
     = ["firs.geojson"; "flights.csv"]
  /\ opened (trace (Kml.main Sample.world
                      (Sample.kml_argv "-out.kml" "12:00:00" "1000")))
     = ["./-out.kml"]
  /\ List.length (writes (trace (Kml.main Sample.world
                      (Sample.kml_argv "-out.kml" "12:00:00" "1000"))))
     = 6%nat
  /\ outcome (Kml.main Sample.world
                (Sample.kml_argv "-out.kml" "12:00:00" "1000"))
     = inr tt.
Proof.
  split.
  - intros argv. unfold Kml.output_name_check, argv_at.
    destruct (nth_error argv 3) as [a|]; [|discriminate].
    rewrite bind_ret. destruct (startswith "-" a); discriminate.
  - repeat split.
Qed.

(** ** C5: the radius argument *)

Lemma digit_char_facts (d : nat) :
  (d < 10)%nat ->
  is_digit (digit_char d) = true
  /\ digit_val (digit_char d) = Z.of_nat d
  /\ is_space (digit_char d) = false
  /\ Ascii.eqb (digit_char d) "-" = false
  /\ Ascii.eqb (digit_char d) "+" = false.
Proof.
  intros H.
  do 10 (destruct d as [|d]; [repeat split|]).
  lia.
Qed.

Lemma digits_of_text (ds : list nat) (acc : Z) (prev : bool) :
  Forall (fun d => (d < 10)%nat) ds ->
  ds <> [] \/ prev = true ->
  PyInt.digits (digits_text ds) acc prev = Some (digits_value ds acc).
Proof.
  intros Hall. revert acc prev.
  induction Hall as [|d ds Hd Hall IH]; intros acc prev Hne.
  - destruct Hne as [Hne|Hne]; [contradiction|]. subst. reflexivity.
  - destruct (digit_char_facts d Hd) as (Hdig & Hval & _).
    cbn [digits_text PyInt.digits]. rewrite Hdig, Hval.
    apply IH. now right.
Qed.

Lemma no_space_digits_text (ds : list nat) :
  Forall (fun d => (d < 10)%nat) ds -> no_space (digits_text ds) = true.
Proof.
  induction 1 as [|d ds Hd Hall IH]; [reflexivity|].
  destruct (digit_char_facts d Hd) as (_ & _ & Hsp & _).
  cbn [digits_text no_space]. now rewrite Hsp, IH.
Qed.

Lemma rstrip_no_space (s : string) : no_space s = true -> rstrip s = s.
Proof.
  induction s as [|c s IH]; [reflexivity|].
  cbn [no_space rstrip]. intros H. apply andb_true_iff in H.
  destruct H as [Hc Hs]. rewrite (IH Hs).
  apply negb_true_iff in Hc. rewrite Hc. now destruct s.
Qed.

Lemma lstrip_no_space (s : string) : no_space s = true -> lstrip s = s.
Proof.
  destruct s as [|c s]; [reflexivity|].
  cbn [no_space lstrip]. intros H. apply andb_true_iff in H.
  destruct H as [Hc _]. apply negb_true_iff in Hc. now rewrite Hc.
Qed.

(** [int] reads every decimal literal, of either sign, as its value. *)
Lemma py_int_literal (negative : bool) (ds : list nat) :
  ds <> [] -> Forall (fun d => (d < 10)%nat) ds ->
  py_int (int_literal negative ds) = Some (int_literal_value negative ds).
Proof.
  intros Hne Hall. unfold py_int.
  assert (Hns : no_space (int_literal negative ds) = true).
  { unfold int_literal. destruct negative; cbn;
      now apply no_space_digits_text. }
  rewrite (lstrip_no_space _ Hns), (rstrip_no_space _ Hns).
  unfold int_literal, int_literal_value.
  destruct negative; cbn [String.append]; unfold signed.
  - rewrite Ascii.eqb_refl, digits_of_text; auto.
  - destruct ds as [|d ds]; [contradiction|].
    inversion Hall as [|? ? Hd Hall']; subst.
    destruct (digit_char_facts d Hd) as (_ & _ & _ & Hm & Hp).
    cbn [digits_text]. rewrite Hm, Hp.
    change (String (digit_char d) (digits_text ds))
      with (digits_text (d :: ds)).
    rewrite digits_of_text; auto.
Qed.

Lemma digits_point (s : string) (acc : Z) (prev : bool) :
  contains_char "." s = true -> PyInt.digits s acc prev = None.
Proof.
  revert acc prev. induction s as [|c s IH]; intros acc prev; [discriminate|].
  cbn [contains_char PyInt.digits]. intros H.
  destruct (Ascii.eqb_spec c ".") as [->|Hc]; [reflexivity|].
  cbn in H. destruct (is_digit c); [now apply IH|].
  destruct (Ascii.eqb c "_"); [|reflexivity].
  destruct prev; [now apply IH|reflexivity].
Qed.

Lemma lstrip_point (s : string) :
  contains_char "." s = true -> contains_char "." (lstrip s) = true.
Proof.
  induction s as [|c s IH]; [discriminate|].
  cbn [lstrip]. intros H. destruct (is_space c) eqn:Hsp; [|exact H].
  apply IH. cbn in H. apply orb_true_iff in H. destruct H as [H|H]; [|exact H].
  apply Ascii.eqb_eq in H. subst. discriminate.
Qed.

Lemma rstrip_point (s : string) :
  contains_char "." s = true -> contains_char "." (rstrip s) = true.
Proof.
  induction s as [|c s IH]; [discriminate|].
  cbn [contains_char rstrip]. intros H. apply orb_true_iff in H.
  destruct H as [H|H].
  - apply Ascii.eqb_eq in H. subst c.
    destruct (rstrip s); reflexivity.
  - specialize (IH H). destruct (rstrip s); [discriminate|].
    cbn [contains_char]. cbn [contains_char] in IH. rewrite IH.
    apply orb_true_r.
Qed.

(** [int] refuses every text with a decimal point. *)
Lemma py_int_point (s : string) :
  contains_char "." s = true -> py_int s = None.
Proof.
  intros H. unfold py_int.
  pose proof (rstrip_point _ (lstrip_point _ H)) as Hp.
  destruct (rstrip (lstrip s)) as [|c t]; [discriminate|].
  unfold signed. cbn [contains_char] in Hp.
  destruct (Ascii.eqb_spec c "-") as [->|Hm].
  - cbn in Hp. now rewrite digits_point.
  - destruct (Ascii.eqb_spec c "+") as [->|Hpl].
    + cbn in Hp. now rewrite digits_point.
    + now apply digits_point.
Qed.

(** C5, counterexample.  The radius [1000.5] is a positive float, and it
    is refused; the radii [-5] and [0] are not positive, and they are
    accepted. *)
Lemma radius_validation_counterexample :
  (py_float Sample.world "1000.5" = Some (2001 # 2) /\ 0 < 2001 # 2
   /\ numerical_values Sample.world Filter.help_manual
        (Sample.filter_argv "12:00:00" "1000.5")
      = ([Print (nl +++ "ERROR: Incorrect argument values" +++ nl);
          Print Filter.help_manual], inl SystemExit))
  /\ (numerical_values Sample.world Filter.help_manual
        (Sample.filter_argv "12:00:00" "-5")
      = ret (10, 20, (-5)%Z)
      /\ ~ (0 < -5)%Z
      /\ outcome (Filter.main Sample.world
                    (Sample.filter_argv "12:00:00" "-5")) = inr tt)
  /\ numerical_values Sample.world Kml.help_manual
       (Sample.kml_argv "out.kml" "12:00:00" "0")
     = ret (10, 20, 0%Z).
Proof.
  repeat split. intros H. discriminate H.
Qed.

(** C5, amended.  Radius validation accepts what Python's [int] reads:
    every decimal integer literal, positive, zero or negative, is accepted
    with its value, and every text with a decimal point, such as
    [1000.5], is refused with the message for incorrect argument values
    and the end of the run.  (Latitude and longitude are taken to be
    present and to read as floats.) *)
Theorem radius_validation_reads_integers
    (w : World) (help_manual : string) (argv : list string)
    (lat_s lon_s rad_s : string) (sat_lat sat_lon : Q)
    (Hlat : arg_after "-lat" argv = ret lat_s)
    (Hlat_float : py_float w lat_s = Some sat_lat)
    (Hlon : arg_after "-lon" argv = ret lon_s)
    (Hlon_float : py_float w lon_s = Some sat_lon)
    (Hrad : arg_after "-rad" argv = ret rad_s) :
  (forall negative ds,
      ds <> [] -> Forall (fun d => (d < 10)%nat) ds ->
      rad_s = int_literal negative ds ->
      numerical_values w help_manual argv
      = ret (sat_lat, sat_lon, int_literal_value negative ds))
  /\ (contains_char "." rad_s = true ->
      numerical_values w help_manual argv
      = ([Print (nl +++ "ERROR: Incorrect argument values" +++ nl);
          Print help_manual], inl SystemExit)).
Proof.
  assert (Hnum : numerical_values w help_manual argv
                 = except_ValueError
                     (sat_radius <- int_ rad_s ;;
                      ret (sat_lat, sat_lon, sat_radius))
                     (print (nl +++ "ERROR: Incorrect argument values"
                                +++ nl) ;;
                      print help_manual ;; sys_exit)).
  { unfold numerical_values, float_.
    rewrite Hlat, bind_ret, Hlat_float, bind_ret.
    rewrite Hlon, bind_ret, Hlon_float, bind_ret.
    rewrite Hrad, bind_ret. reflexivity. }
  rewrite Hnum. unfold int_. split.
  - intros negative ds Hne Hall ->.
    rewrite py_int_literal by assumption. reflexivity.
  - intros Hpoint. rewrite py_int_point by assumption. reflexivity.
Qed.

Lemma radius_validation_reads_integers_witness :
  (arg_after "-lat" (Sample.filter_argv "12:00:00" "-5") = ret "10"
   /\ py_float Sample.world "10" = Some 10
   /\ arg_after "-lon" (Sample.filter_argv "12:00:00" "-5") = ret "20"
   /\ py_float Sample.world "20" = Some 20
   /\ arg_after "-rad" (Sample.filter_argv "12:00:00" "-5") = ret "-5"
   /\ [5%nat] <> [] /\ Forall (fun d => (d < 10)%nat) [5%nat]
   /\ "-5" = int_literal true [5%nat])
  /\ numerical_values Sample.world Filter.help_manual
       (Sample.filter_argv "12:00:00" "-5")
     = ret (10, 20, (-5)%Z).
Proof.
  assert (Hne : [5%nat] <> []) by discriminate.
  assert (Hall : Forall (fun d => (d < 10)%nat) [5%nat])
    by (constructor; [lia | constructor]).
  split; [repeat split; assumption|].
  exact (proj1 (radius_validation_reads_integers
                  Sample.world Filter.help_manual
                  (Sample.filter_argv "12:00:00" "-5")
                  "10" "20" "-5" 10 20
                  eq_refl eq_refl eq_refl eq_refl eq_refl)
               true [5%nat] Hne Hall eq_refl).
Defined.

(** ** C7: features without a ring or without a name *)

Lemma bind_emit_prepend {B} (ev : event) (f : Datatypes.unit -> M B) :
  bind (emit ev) f = prepend [ev] (f tt).
Proof. apply bind_emit. Qed.

Lemma writeKML_prepend {B} (kml_text : string) (f : string -> M B) :
  bind (Kml.writeKML kml_text) f = prepend [FileWrite kml_text] (f "").
Proof. apply writeKML_bind. Qed.

Lemma bind_ext {A B} (m : M A) (f g : A -> M B) :
  (forall a, f a = g a) -> bind m f = bind m g.
Proof.
  intros H. destruct m as [t [e|a]]; [reflexivity|].
  unfold bind. now rewrite H.
Qed.

Lemma getFIRs_loop_no_ring (features : list Feature) polygons names :
  Exists (fun f => coordinates f = []) features ->
  Kml.getFIRs_loop features polygons names = raise IndexError.
Proof.
  intros H. revert polygons names.
  induction H as [f fs Hf|f fs _ IH]; intros polygons names;
    cbn [Kml.getFIRs_loop].
  - now rewrite Hf.
  - destruct (coordinates f); [reflexivity|apply IH].
Qed.

Lemma getFIRs_loop_rings (features : list Feature) polygons names :
  Forall (fun f => coordinates f <> []) features ->
  Kml.getFIRs_loop features polygons names
  = ret (polygons ++ map first_ring features,
         names ++ map properties features).
Proof.
  intros H. revert polygons names.
  induction H as [|f fs Hf _ IH]; intros polygons names;
    cbn [Kml.getFIRs_loop map].
  - now rewrite !app_nil_r.
  - unfold first_ring at 1. destruct (coordinates f) as [|ring rings];
      [contradiction|].
    rewrite IH, <- !app_assoc. reflexivity.
Qed.

Lemma fir_data_features (w : World) (fs pre : list Feature)
    (kml_text : string) :
  Kml.fir_data w (map first_ring (pre ++ fs)) (map properties (pre ++ fs))
               (seq (List.length pre) (List.length fs)) kml_text
  = fir_features w fs kml_text.
Proof.
  revert pre kml_text. induction fs as [|f fs IH]; intros pre kml_text;
    [reflexivity|].
  cbn [List.length seq Kml.fir_data fir_features].
  rewrite !nth_error_map, nth_error_app2, Nat.sub_diag by lia.
  cbn [nth_error option_map].
  apply bind_ext. intros txt.
  specialize (IH (pre ++ [f]) txt).
  rewrite length_app, Nat.add_1_r, <- app_assoc in IH. exact IH.
Qed.

Lemma extended_data_pure (w : World) keys names_n kml_text :
  trace (Kml.extended_data w keys names_n kml_text) = [].
Proof.
  revert kml_text. induction keys as [|k keys IH]; intros kml_text;
    [reflexivity|].
  cbn [Kml.extended_data]. destruct (lookup k names_n); [apply IH|reflexivity].
Qed.

Lemma border_points_pure (w : World) points kml_text :
  trace (Kml.border_points w points kml_text) = [].
Proof.
  revert kml_text. induction points as [|p points IH]; intros kml_text;
    [reflexivity|].
  cbn [Kml.border_points]. destruct p as [|p0 [|p1 p]];
    [reflexivity|reflexivity|apply IH].
Qed.

Lemma bind_pure {A B} (m : M A) (f : A -> M B) :
  trace m = [] ->
  bind m f = match outcome m with
             | inl e => raise e
             | inr a => f a
             end.
Proof.
  destruct m as [t [e|a]]; cbn; intros ->; [reflexivity|].
  now destruct (f a).
Qed.

(** A FIR either fails with nothing written or is written as one chunk. *)
Lemma fir_placemark_result (w : World) polygons_n names_n kml_text :
  (exists e, Kml.fir_placemark w polygons_n names_n kml_text = raise e)
  \/ (exists text, Kml.fir_placemark w polygons_n names_n kml_text
                   = ([FileWrite text], inr "")).
Proof.
  unfold Kml.fir_placemark.
  destruct (lookup "FIRname" names_n) as [[s|q|]|];
    try (left; eexists; reflexivity).
  rewrite bind_ret, (bind_pure _ _ (extended_data_pure _ _ _ _)).
  destruct (outcome (Kml.extended_data _ _ _ _)) as [e|txt];
    [left; eexists; reflexivity|].
  rewrite (bind_pure _ _ (border_points_pure _ _ _)).
  destruct (outcome (Kml.border_points _ _ _)) as [e|txt'];
    [left; eexists; reflexivity|].
  right. eexists. reflexivity.
Qed.

Lemma fir_placemark_no_name (w : World) polygons_n names_n kml_text :
  lookup "FIRname" names_n = None ->
  Kml.fir_placemark w polygons_n names_n kml_text = raise KeyError.
Proof. intros H. unfold Kml.fir_placemark. now rewrite H. Qed.

Lemma fir_features_stop (w : World) (good rest : list Feature)
    (bad : Feature) :
  Forall (fir_written w) good ->
  lookup "FIRname" (properties bad) = None ->
  fir_features w (good ++ bad :: rest) ""
  = (map FileWrite (fir_chunks w good), inl KeyError).
Proof.
  intros Hgood Hbad. induction Hgood as [|g good [s Hg] _ IH].
  - cbn [app fir_features]. now rewrite fir_placemark_no_name.
  - cbn [app fir_features]. unfold fir_chunks. cbn [flat_map].
    fold (fir_chunks w good).
    destruct (fir_placemark_result w (first_ring g) (properties g) "")
      as [[e He]|[text Ht]].
    + rewrite He in Hg. discriminate.
    + rewrite Ht. cbn [bind]. rewrite IH. reflexivity.
Qed.

Lemma bind_print_prepend {B} (text : string) (f : Datatypes.unit -> M B) :
  bind (print text) f = prepend [Print text] (f tt).
Proof. apply bind_emit. Qed.

Lemma opened_writes (l : list string) : opened (map FileWrite l) = [].
Proof. induction l; simpl; auto. Qed.

Lemma writes_writes (l : list string) : writes (map FileWrite l) = l.
Proof. induction l; simpl; congruence. Qed.

Lemma no_close_in_writes (l : list string) : ~ In FileClose (map FileWrite l).
Proof.
  induction l as [|s l IH]; simpl; [tauto|].
  intros [H|H]; [discriminate|auto].
Qed.

Lemma opened_app (t1 t2 : list event) :
  opened (t1 ++ t2) = opened t1 ++ opened t2.
Proof.
  induction t1 as [|ev t1 IH]; [reflexivity|].
  destruct ev; simpl; congruence.
Qed.

Lemma written_app (t1 t2 : list event) :
  written t1 = None -> written (t1 ++ t2) = written t2.
Proof.
  induction t1 as [|ev t1 IH]; [reflexivity|].
  destruct ev; simpl; auto. discriminate.
Qed.

(** The KML run up to the loading of the FIRs. *)
Ltac run_to_getFIRs Hgeojson :=
  unfold Kml.process;
  rewrite !bind_print_prepend;
  unfold argv_at at 1; rewrite Hgeojson, bind_ret;
  unfold Kml.getFIRs; rewrite bind_assoc, bind_emit_prepend.

(** The KML run from the loaded FIRs to the loop over them. *)
Ltac run_to_fir_data Houtput :=
  rewrite bind_ret; cbv beta iota;
  rewrite bind_print_prepend;
  unfold pd_read_csv; rewrite bind_assoc, bind_emit_prepend, bind_ret;
  rewrite bind_print_prepend;
  unfold argv_at; rewrite Houtput, bind_ret;
  rewrite bind_emit_prepend, !writeKML_prepend.

Lemma process_no_ring (w : World) (argv : list string)
    (checked : Q * Q * Z * string * string) (geojson : string) :
  nth_error argv 1 = Some geojson ->
  Exists (fun f => coordinates f = []) (pygeoj_load w geojson) ->
  outcome (Kml.process w argv checked) = inl IndexError
  /\ opened (trace (Kml.process w argv checked)) = []
  /\ written (trace (Kml.process w argv checked)) = None.
Proof.
  intros Hgeojson Hring.
  assert (Hrun : exists t, Kml.process w argv checked = (t, inl IndexError)
                           /\ opened t = [] /\ written t = None).
  { destruct checked
      as [[[[sat_lat sat_lon] sat_radius] sat_time] flights_file].
    run_to_getFIRs Hgeojson.
    rewrite getFIRs_loop_no_ring by assumption.
    eexists. split; [reflexivity|]. split; reflexivity. }
  destruct Hrun as (t & -> & Hopened & Hwritten). auto.
Qed.

Lemma process_no_name (w : World) (argv : list string)
    (checked : Q * Q * Z * string * string) (geojson output_name : string)
    (good rest : list Feature) (bad : Feature) :
  nth_error argv 1 = Some geojson ->
  nth_error argv 3 = Some output_name ->
  pygeoj_load w geojson = good ++ bad :: rest ->
  Forall (fun f => coordinates f <> []) (pygeoj_load w geojson) ->
  Forall (fir_written w) good ->
  lookup "FIRname" (properties bad) = None ->
  outcome (Kml.process w argv checked) = inl KeyError
  /\ opened (trace (Kml.process w argv checked)) = ["./" +++ output_name]
  /\ written (trace (Kml.process w argv checked))
     = Some (Kml.kml_header output_name :: Kml.style_FIR
             :: Kml.style_Flight :: fir_chunks w good)
  /\ ~ In FileClose (trace (Kml.process w argv checked)).
Proof.
  intros Hgeojson Houtput Hload Hrings Hgood Hbad.
  assert (Hrun : exists t,
             Kml.process w argv checked
             = (t ++ FileOpen ("./" +++ output_name)
                  :: map FileWrite
                       (Kml.kml_header output_name :: Kml.style_FIR
                        :: Kml.style_Flight :: fir_chunks w good),
                inl KeyError)
             /\ opened t = [] /\ written t = None /\ ~ In FileClose t).
  { destruct checked
      as [[[[sat_lat sat_lon] sat_radius] sat_time] flights_file].
    run_to_getFIRs Hgeojson.
    rewrite getFIRs_loop_rings by assumption.
    run_to_fir_data Houtput.
    cbn [app]. rewrite length_map.
    pose proof (fir_data_features w (pygeoj_load w geojson) [] "") as Hloop.
    cbn [app List.length] in Hloop. rewrite Hloop, Hload.
    rewrite fir_features_stop by assumption.
    eexists (_ :: _ :: _ :: _ :: _ :: _ :: _ :: _ :: _ :: _ :: []).
    split; [reflexivity|]. split; [reflexivity|]. split; [reflexivity|].
    intros Hclose. repeat (destruct Hclose as [Hclose|Hclose];
                           [discriminate Hclose|]).
    exact Hclose. }
  destruct Hrun as (t & -> & Hopened & Hwritten & Hclose).
  cbn [outcome trace fst snd].
  split; [reflexivity|]. split; [|split].
  - rewrite opened_app, Hopened. cbn [app opened].
    now rewrite opened_writes.
  - rewrite written_app by assumption. cbn [written].
    now rewrite writes_writes.
  - intros Hin. apply in_app_or in Hin. destruct Hin as [Hin|[Hin|Hin]].
    + exact (Hclose Hin).
    + discriminate Hin.
    + exact (no_close_in_writes _ Hin).
Qed.

(** C7, counterexample.  A FIR without [FIRname] after a well-formed one:
    both inputs are loaded without error, the output file is opened, the
    header, the two styles and the first FIR are written, and the run ends
    there with a [KeyError]; the file is neither completed nor closed nor
    removed. *)
Lemma unnamed_fir_counterexample :
  outcome (Kml.main Sample.world_unnamed_fir
             (Sample.kml_argv "out.kml" "12:00:00" "1000")) = inl KeyError
  /\ loaded (trace (Kml.main Sample.world_unnamed_fir
                      (Sample.kml_argv "out.kml" "12:00:00" "1000")))
     = ["firs.geojson"; "flights.csv"]
  /\ opened (trace (Kml.main Sample.world_unnamed_fir
                      (Sample.kml_argv "out.kml" "12:00:00" "1000")))
     = ["./out.kml"]
  /\ written (trace (Kml.main Sample.world_unnamed_fir
                       (Sample.kml_argv "out.kml" "12:00:00" "1000")))
     = Some (Kml.kml_header "out.kml" :: Kml.style_FIR :: Kml.style_Flight
             :: fir_chunks Sample.world_unnamed_fir Sample.firs)
  /\ List.length (fir_chunks Sample.world_unnamed_fir Sample.firs) = 1%nat
  /\ ~ In FileClose (trace (Kml.main Sample.world_unnamed_fir
                              (Sample.kml_argv "out.kml" "12:00:00" "1000"))).
Proof.
  repeat split.
  intros H. vm_compute in H.
  repeat (destruct H as [H|H]; [discriminate H|]). exact H.
Qed.

(** C7, amended.  A feature without any ring makes the loading of the
    FIRs fail with an [IndexError] before the output file is opened, so no
    output document exists.  A feature without [FIRname] is found only
    when its entry is built: the run ends there with a [KeyError], after
    the output file was opened, and the header, the two styles and the
    entries of the features before it stay in the file, which is not
    closed by the script.  Both are fatal. *)
Theorem malformed_feature_is_fatal
    (w : World) (argv : list string) (checked : Q * Q * Z * string * string)
    (geojson output_name : string)
    (Hgeojson : nth_error argv 1 = Some geojson)
    (Houtput : nth_error argv 3 = Some output_name) :
  (Exists (fun f => coordinates f = []) (pygeoj_load w geojson) ->
   outcome (Kml.process w argv checked) = inl IndexError
   /\ opened (trace (Kml.process w argv checked)) = []
   /\ written (trace (Kml.process w argv checked)) = None)
  /\ (forall good bad rest,
        pygeoj_load w geojson = good ++ bad :: rest ->
        Forall (fun f => coordinates f <> []) (pygeoj_load w geojson) ->
        Forall (fir_written w) good ->
        lookup "FIRname" (properties bad) = None ->
        outcome (Kml.process w argv checked) = inl KeyError
        /\ opened (trace (Kml.process w argv checked))
           = ["./" +++ output_name]
        /\ written (trace (Kml.process w argv checked))
           = Some (Kml.kml_header output_name :: Kml.style_FIR
                   :: Kml.style_Flight :: fir_chunks w good)
        /\ ~ In FileClose (trace (Kml.process w argv checked))).
Proof.
  split.
  - intros Hring. now apply process_no_ring with (geojson := geojson).
  - intros good bad rest Hload Hrings Hgood Hbad.
    now apply process_no_name
      with (geojson := geojson) (bad := bad) (rest := rest).
Qed.

Lemma malformed_feature_is_fatal_witness :
  (nth_error (Sample.kml_argv "out.kml" "12:00:00" "1000") 1
   = Some "firs.geojson"
   /\ nth_error (Sample.kml_argv "out.kml" "12:00:00" "1000") 3
      = Some "out.kml"
   /\ Exists (fun f => coordinates f = [])
             (pygeoj_load Sample.world_ringless_fir "firs.geojson"))
  /\ outcome (Kml.process Sample.world_ringless_fir
                (Sample.kml_argv "out.kml" "12:00:00" "1000")
                (10, 20, 1000%Z, "12:00:00", "flights.csv"))
     = inl IndexError
  /\ written (trace (Kml.process Sample.world_ringless_fir
                (Sample.kml_argv "out.kml" "12:00:00" "1000")
                (10, 20, 1000%Z, "12:00:00", "flights.csv")))
     = None.
Proof.
  assert (Hring : Exists (fun f => coordinates f = [])
                    (pygeoj_load Sample.world_ringless_fir "firs.geojson")).
  { simpl. apply Exists_cons_tl, Exists_cons_hd. reflexivity. }
  split; [repeat split; exact Hring|].
  pose proof (proj1 (malformed_feature_is_fatal
                       Sample.world_ringless_fir
                       (Sample.kml_argv "out.kml" "12:00:00" "1000")
                       (10, 20, 1000%Z, "12:00:00", "flights.csv")
                       "firs.geojson" "out.kml" eq_refl eq_refl) Hring)
    as (Hout & _ & Hwritten).
  split; assumption.
Defined.

(* ================================================================== *)
(** * Further properties of the scripts *)

(** ** The initial checks only print *)

Lemma quiet_ret {A} (a : A) : quiet (ret a).
Proof. constructor. Qed.

Lemma quiet_raise {A} (e : exn) : quiet (@raise A e).
Proof. constructor. Qed.

Lemma quiet_print (text : string) : quiet (print text).
Proof. repeat constructor. eexists. reflexivity. Qed.

Lemma quiet_bind {A B} (m : M A) (f : A -> M B) :
  quiet m -> (forall a, quiet (f a)) -> quiet (bind m f).
Proof.
  unfold quiet. destruct m as [t [e|a]]; cbn; intros Hm Hf; [exact Hm|].
  specialize (Hf a). destruct (f a) as [t' r]. cbn in *.
  apply Forall_app. now split.
Qed.

Lemma quiet_except {A} (body handler : M A) :
  quiet body -> quiet handler -> quiet (except_ValueError body handler).
Proof.
  unfold quiet, except_ValueError.
  destruct body as [t [[]|a]]; cbn; intros Hb Hh; try exact Hb.
  destruct handler as [t' r]. cbn in *. apply Forall_app. now split.
Qed.

(** One step of a proof that a block only prints. *)
Ltac quiet_step :=
  match goal with
  | |- quiet (bind _ _) => apply quiet_bind; [|intros]
  | |- quiet (ret _) => apply quiet_ret
  | |- quiet (raise _) => apply quiet_raise
  | |- quiet sys_exit => apply quiet_raise
  | |- quiet (print _) => apply quiet_print
  | |- quiet (except_ValueError _ _) => apply quiet_except
  | |- quiet (if ?b then _ else _) => destruct b
  | |- quiet (match ?x with _ => _ end) => destruct x
  end.

Lemma quiet_argv_at (argv : list string) (i : nat) : quiet (argv_at argv i).
Proof. unfold argv_at. repeat quiet_step. Qed.

Lemma quiet_arg_after (flag : string) (argv : list string) :
  quiet (arg_after flag argv).
Proof. unfold arg_after. destruct (index_of flag argv); [apply quiet_argv_at|
                                                          apply quiet_raise]. Qed.

Lemma quiet_int_between (lo hi : Z) (s : string) :
  quiet (int_between lo hi s).
Proof. unfold int_between, int_. repeat quiet_step. Qed.

Lemma quiet_mandatory_arguments (help_manual : string)
    (argv args : list string) :
  quiet (mandatory_arguments help_manual argv args).
Proof.
  induction args as [|a args IH]; cbn [mandatory_arguments].
  - apply quiet_ret.
  - destruct (negb (mem a argv)); [repeat quiet_step|exact IH].
Qed.

Lemma quiet_arguments_filtering (min_len : nat) (help_manual : string)
    (argv : list string) :
  quiet (arguments_filtering min_len help_manual argv).
Proof.
  unfold arguments_filtering.
  destruct (List.length argv <? min_len)%nat;
    [repeat quiet_step|apply quiet_mandatory_arguments].
Qed.

Lemma quiet_numerical_values (w : World) (help_manual : string)
    (argv : list string) :
  quiet (numerical_values w help_manual argv).
Proof.
  unfold numerical_values, float_, int_.
  repeat first [apply quiet_arg_after | quiet_step].
Qed.

Lemma quiet_time_values (help_manual : string) (argv : list string) :
  quiet (time_values help_manual argv).
Proof.
  unfold time_values, or_, and_, not_.
  repeat first [apply quiet_arg_after | apply quiet_int_between | quiet_step].
Qed.

Lemma quiet_no_files (t : list event) :
  Forall (fun ev => exists text, ev = Print text) t ->
  loaded t = [] /\ opened t = [] /\ writes t = [] /\ written t = None.
Proof.
  induction 1 as [|ev t [text ->] _ IH]; cbn; auto.
Qed.

(** Until its checks are over, neither script loads a file, opens the
    output or writes to it: whatever the command line and the world, the
    initial checks only print. *)
Theorem initial_checks_touch_no_file (w : World) (argv : list string) :
  (loaded (trace (Filter.initial_checks w argv)) = []
   /\ opened (trace (Filter.initial_checks w argv)) = []
   /\ writes (trace (Filter.initial_checks w argv)) = []
   /\ written (trace (Filter.initial_checks w argv)) = None)
  /\ (loaded (trace (Kml.initial_checks w argv)) = []
      /\ opened (trace (Kml.initial_checks w argv)) = []
      /\ writes (trace (Kml.initial_checks w argv)) = []
      /\ written (trace (Kml.initial_checks w argv)) = None).
Proof.
  split; apply quiet_no_files;
    match goal with |- Forall _ (trace ?m) => change (quiet m) end.
  - unfold Filter.initial_checks, Filter.flights_file_check.
    repeat first [ apply quiet_arguments_filtering
                 | apply quiet_numerical_values
                 | apply quiet_time_values
                 | apply quiet_argv_at
                 | quiet_step ].
  - unfold Kml.initial_checks, Kml.geojson_file_check,
      Kml.flights_file_check, Kml.output_name_check.
    repeat first [ apply quiet_arguments_filtering
                 | apply quiet_numerical_values
                 | apply quiet_time_values
                 | apply quiet_argv_at
                 | quiet_step ].
Qed.

(** ** The shape of the command line (0.1) *)

Lemma mem_app (x : string) (l l' : list string) :
  mem x (l ++ l') = mem x l || mem x l'.
Proof.
  induction l as [|y l IH]; cbn; [reflexivity|].
  now rewrite IH, orb_assoc.
Qed.

Lemma mandatory_arguments_present (help_manual : string)
    (argv args : list string) :
  Forall (fun flag => mem flag argv = true) args ->
  mandatory_arguments help_manual argv args = ret tt.
Proof.
  induction 1 as [|a args Ha _ IH]; cbn [mandatory_arguments];
    [reflexivity|].
  now rewrite Ha.
Qed.

Lemma mandatory_arguments_missing (help_manual : string)
    (argv before after : list string) (flag : string) :
  Forall (fun f => mem f argv = true) before ->
  mem flag argv = false ->
  mandatory_arguments help_manual argv (before ++ flag :: after)
  = refusal ("ERROR: " +++ flag +++ " argument not found" +++ nl)
            help_manual.
Proof.
  intros Hbefore Hflag.
  induction Hbefore as [|a before Ha _ IH]; cbn [app mandatory_arguments].
  - now rewrite Hflag.
  - now rewrite Ha.
Qed.

Lemma mandatory_arguments_ret (help_manual : string)
    (argv args : list string) :
  mandatory_arguments help_manual argv args = ret tt ->
  Forall (fun flag => mem flag argv = true) args.
Proof.
  induction args as [|a args IH]; cbn [mandatory_arguments]; intros H;
    [constructor|].
  destruct (mem a argv) eqn:Ha; cbn in H; [|discriminate H].
  constructor; auto.
Qed.

Lemma arguments_filtering_present (min_len : nat) (help_manual : string)
    (argv : list string) :
  (min_len <= List.length argv)%nat ->
  Forall (fun flag => mem flag argv = true) man_arg_list ->
  arguments_filtering min_len help_manual argv = ret tt.
Proof.
  intros Hlen Hflags. unfold arguments_filtering.
  destruct (Nat.ltb_spec (List.length argv) min_len); [lia|].
  now apply mandatory_arguments_present.
Qed.

(** The command line passes the first check exactly when it has enough
    words and each of [-lat], [-lon], [-time], [-rad] among them (wherever
    it stands); a shorter one is refused with the help banner, if it is
    just [-h], or with the error for incorrect arguments; a long enough
    one is refused with the name of the first mandatory flag it lacks.
    Every refusal prints the manual and ends the run. *)
Theorem arguments_filtering_cases
    (min_len : nat) (help_manual : string) (argv : list string) :
  (arguments_filtering min_len help_manual argv = ret tt
   <-> (min_len <= List.length argv)%nat
       /\ Forall (fun flag => mem flag argv = true) man_arg_list)
  /\ ((List.length argv < min_len)%nat ->
      arguments_filtering min_len help_manual argv
      = refusal (if (List.length argv =? 2)%nat
                    && String.eqb (nth 1 argv "") "-h"
                 then nl +++ "HELP MANUAL" +++ nl
                 else nl +++ "ERROR: Incorrect arguments" +++ nl)
                help_manual)
  /\ (forall before flag after,
        (min_len <= List.length argv)%nat ->
        man_arg_list = before ++ flag :: after ->
        Forall (fun f => mem f argv = true) before ->
        mem flag argv = false ->
        arguments_filtering min_len help_manual argv
        = refusal ("ERROR: " +++ flag +++ " argument not found" +++ nl)
                  help_manual).
Proof.
  unfold arguments_filtering.
  destruct (Nat.ltb_spec (List.length argv) min_len) as [Hlt|Hge].
  - split; [|split].
    + split.
      * destruct ((List.length argv =? 2)%nat
                  && String.eqb (nth 1 argv "") "-h"); discriminate.
      * intros [Hle _]. lia.
    + intros _. destruct ((List.length argv =? 2)%nat
                          && String.eqb (nth 1 argv "") "-h"); reflexivity.
    + intros; lia.
  - split; [|split].
    + split.
      * intros H. split; [exact Hge|]. now apply mandatory_arguments_ret in H.
      * intros [_ H]. now apply mandatory_arguments_present.
    + intros; lia.
    + intros before flag after _ -> Hbefore Hflag.
      now apply mandatory_arguments_missing.
Qed.

Lemma arguments_filtering_cases_witness :
  ((10 <= List.length (Sample.filter_argv "12:00:00" "1000"))%nat
   /\ Forall (fun flag => mem flag (Sample.filter_argv "12:00:00" "1000")
                          = true) man_arg_list)
  /\ arguments_filtering 10 Filter.help_manual
       (Sample.filter_argv "12:00:00" "1000") = ret tt.
Proof.
  assert (H : (10 <= List.length (Sample.filter_argv "12:00:00" "1000"))%nat
              /\ Forall (fun flag =>
                           mem flag (Sample.filter_argv "12:00:00" "1000")
                           = true) man_arg_list).
  { split; [simpl; lia|repeat constructor]. }
  split; [exact H|].
  exact (proj2 (proj1 (arguments_filtering_cases
                         10 Filter.help_manual
                         (Sample.filter_argv "12:00:00" "1000"))) H).
Defined.

(** ** A flag without a value *)

Lemma index_of_app_absent (x : string) (l l' : list string) :
  mem x l = false ->
  index_of x (l ++ l')
  = option_map (Nat.add (List.length l)) (index_of x l').
Proof.
  induction l as [|y l IH]; cbn.
  - intros _. now destruct (index_of x l').
  - intros H. apply orb_false_iff in H. destruct H as [Hy Hl].
    rewrite Hy, (IH Hl). now destruct (index_of x l').
Qed.

Lemma arg_after_last (flag : string) (pre : list string) :
  mem flag pre = false ->
  arg_after flag (pre ++ [flag]) = raise IndexError.
Proof.
  intros H. unfold arg_after, argv_at.
  rewrite (index_of_app_absent _ _ _ H). cbn. rewrite String.eqb_refl. cbn.
  replace (nth_error (pre ++ [flag]) (List.length pre + 0 + 1)) with
    (@None string); [reflexivity|].
  symmetry. apply nth_error_None. rewrite length_app. cbn. lia.
Qed.

(** When [-lat] is the last word of an otherwise complete command line,
    the value is read past the end of the arguments: both scripts end
    with an uncaught [IndexError], having printed nothing, neither the
    error for incorrect argument values nor the manual. *)
Theorem flag_without_value_not_caught (w : World) (pre : list string)
    (Hlen : (11 <= List.length pre)%nat)
    (Hlat : mem "-lat" pre = false)
    (Hlon : mem "-lon" pre = true)
    (Htime : mem "-time" pre = true)
    (Hrad : mem "-rad" pre = true) :
  Filter.main w (pre ++ ["-lat"]) = raise IndexError
  /\ Kml.main w (pre ++ ["-lat"]) = raise IndexError.
Proof.
  assert (Hflags : Forall (fun flag => mem flag (pre ++ ["-lat"]) = true)
                          man_arg_list).
  { repeat constructor; rewrite mem_app;
      first [now rewrite Hlon | now rewrite Htime | now rewrite Hrad
            | apply orb_true_r]. }
  assert (Hnum : forall help_manual,
             numerical_values w help_manual (pre ++ ["-lat"])
             = raise IndexError).
  { intros help_manual. unfold numerical_values.
    now rewrite (arg_after_last _ _ Hlat). }
  assert (Hargs : forall min_len help_manual,
             (min_len <= 12)%nat ->
             arguments_filtering min_len help_manual (pre ++ ["-lat"])
             = ret tt).
  { intros min_len help_manual Hmin.
    apply arguments_filtering_present;
      [rewrite length_app; cbn; lia|exact Hflags]. }
  split.
  - unfold Filter.main, Filter.initial_checks.
    rewrite Hargs by lia. rewrite bind_ret, Hnum. reflexivity.
  - unfold Kml.main, Kml.initial_checks.
    rewrite Hargs by lia. rewrite bind_ret, Hnum. reflexivity.
Qed.

Lemma flag_without_value_not_caught_witness :
  ((11 <= List.length ["kml.py"; "firs.geojson"; "flights.csv"; "out.kml";
                       "-lon"; "20"; "-time"; "12:00:00"; "-rad"; "1000";
                       "-km"])%nat
   /\ mem "-lat" ["kml.py"; "firs.geojson"; "flights.csv"; "out.kml";
                  "-lon"; "20"; "-time"; "12:00:00"; "-rad"; "1000"; "-km"]
      = false)
  /\ Kml.main Sample.world
       ["kml.py"; "firs.geojson"; "flights.csv"; "out.kml";
        "-lon"; "20"; "-time"; "12:00:00"; "-rad"; "1000"; "-km"; "-lat"]
     = raise IndexError.
Proof.
  split; [split; [simpl; lia|reflexivity]|].
  exact (proj2 (flag_without_value_not_caught
                  Sample.world
                  ["kml.py"; "firs.geojson"; "flights.csv"; "out.kml";
                   "-lon"; "20"; "-time"; "12:00:00"; "-rad"; "1000"; "-km"]
                  (le_n 11) eq_refl eq_refl eq_refl eq_refl)).
Defined.

(** ** The numerical values (0.2.1) *)

Lemma arg_after_cases (flag : string) (argv : list string) :
  arg_after flag argv = raise ValueError
  \/ arg_after flag argv = raise IndexError
  \/ exists value, arg_after flag argv = ret value.
Proof.
  unfold arg_after, argv_at. destruct (index_of flag argv) as [i|]; [|now left].
  destruct (nth_error argv (i + 1)) as [value|]; [|now right; left].
  right; right. now exists value.
Qed.



(** ** The time value (0.2.2) *)






(** ** Loading the FIRs ([getFIRs]) *)

(** [getFIRs] loads the file once.  When every feature has a ring, it
    returns the first ring of each feature and the property map of each
    feature, both in the order of the file (further rings are left out);
    when some feature has no ring, it fails with an [IndexError] and
    returns nothing. *)
Theorem getFIRs_cases (w : World) (geojson : string) :
  (Forall (fun f => coordinates f <> []) (pygeoj_load w geojson) ->
   Kml.getFIRs w geojson
   = ([PygeojLoad geojson],
      inr (map first_ring (pygeoj_load w geojson),
           map properties (pygeoj_load w geojson))))
  /\ (Exists (fun f => coordinates f = []) (pygeoj_load w geojson) ->
      Kml.getFIRs w geojson = ([PygeojLoad geojson], inl IndexError)).
Proof.
  unfold Kml.getFIRs. split; intros H.
  - rewrite bind_emit, getFIRs_loop_rings by assumption. reflexivity.
  - rewrite bind_emit, getFIRs_loop_no_ring by assumption. reflexivity.
Qed.

Lemma getFIRs_cases_witness :
  Forall (fun f => coordinates f <> []) (pygeoj_load Sample.world "f.geojson")
  /\ Kml.getFIRs Sample.world "f.geojson"
     = ([PygeojLoad "f.geojson"],
        inr (map first_ring Sample.firs, map properties Sample.firs)).
Proof.
  assert (H : Forall (fun f => coordinates f <> [])
                     (pygeoj_load Sample.world "f.geojson"))
    by (repeat constructor; discriminate).
  split; [exact H|].
  exact (proj1 (getFIRs_cases Sample.world "f.geojson") H).
Defined.

(** ** The entry of a FIR (2.4) *)

Lemma lookup_own_key (names_n : list (string * PropValue)) (k : string) :
  In k (map fst names_n) -> exists v, lookup k names_n = Some v.
Proof.
  induction names_n as [|[k' v'] names_n IH]; cbn; [contradiction|].
  intros [->|H].
  - rewrite String.eqb_refl. eauto.
  - destruct (String.eqb k' k); eauto.
Qed.

Lemma lookup_unique_key (names_n : list (string * PropValue))
    (kv : string * PropValue) :
  NoDup (map fst names_n) -> In kv names_n ->
  lookup (fst kv) names_n = Some (snd kv).
Proof.
  induction names_n as [|[k' v'] names_n IH]; cbn; [contradiction|].
  intros Hnd Hin. inversion Hnd as [|? ? Hnot Hnd']; subst.
  destruct Hin as [<-|Hin]; cbn.
  - now rewrite String.eqb_refl.
  - destruct (String.eqb_spec k' (fst kv)) as [->|Hne]; [|auto].
    exfalso. apply Hnot. now apply in_map.
Qed.

(** The attribute loop never fails on the keys of the map it reads. *)
Lemma extended_data_own_keys (w : World)
    (names_n : list (string * PropValue)) (keys : list string)
    (kml_text : string) :
  incl keys (map fst names_n) ->
  exists text, Kml.extended_data w keys names_n kml_text = ret text.
Proof.
  revert kml_text. induction keys as [|k keys IH]; intros kml_text Hincl.
  - now exists kml_text.
  - cbn [Kml.extended_data].
    destruct (lookup_own_key names_n k) as [v Hv]; [apply Hincl; now left|].
    rewrite Hv. apply IH. intros x Hx. apply Hincl. now right.
Qed.

Lemma extended_data_entries (w : World)
    (names_n l : list (string * PropValue)) (kml_text : string) :
  (forall kv, In kv l -> lookup (fst kv) names_n = Some (snd kv)) ->
  Kml.extended_data w (map fst l) names_n kml_text
  = ret (kml_text +++ join (map (data_entry w) l)).
Proof.
  revert kml_text. induction l as [|kv l IH]; intros kml_text Hl.
  - cbn. f_equal. f_equal. induction kml_text; cbn; congruence.
  - cbn [map Kml.extended_data join]. rewrite (Hl kv) by now left.
    rewrite IH by (intros; apply Hl; now right).
    unfold data_entry. rewrite !append_assoc. reflexivity.
Qed.

Lemma border_points_vertices (w : World) (points : list (list Q))
    (kml_text : string) :
  forallb has_lon_lat points = true ->
  Kml.border_points w points kml_text
  = ret (kml_text +++ join (map (vertex_text w) points)).
Proof.
  revert kml_text. induction points as [|p points IH]; intros kml_text H.
  - cbn. f_equal. f_equal. induction kml_text; cbn; congruence.
  - cbn [forallb] in H. apply andb_true_iff in H. destruct H as [Hp Hps].
    destruct p as [|p0 [|p1 p]]; try discriminate Hp.
    cbn [Kml.border_points map join]. rewrite IH by assumption.
    unfold vertex_text. cbn [nth]. rewrite !append_assoc. reflexivity.
Qed.

Lemma border_points_short (w : World) (points : list (list Q))
    (kml_text : string) :
  forallb has_lon_lat points = false ->
  Kml.border_points w points kml_text = raise IndexError.
Proof.
  revert kml_text. induction points as [|p points IH]; intros kml_text H;
    [discriminate H|].
  cbn [forallb] in H. cbn [Kml.border_points].
  destruct p as [|p0 [|p1 p]]; try reflexivity.
  cbn in H. now apply IH.
Qed.

(** How the entry of one FIR can end.  Without [FIRname] it is a
    [KeyError]; with a [FIRname] that is not a string, a [TypeError];
    with a border point of fewer than two coordinates, an [IndexError];
    in these three cases nothing is written for the FIR.  Otherwise the
    entry is written as one chunk and the buffer comes back empty: the
    attribute loop itself never fails. *)
Theorem fir_placemark_cases (w : World) (polygons_n : list (list Q))
    (names_n : list (string * PropValue)) (kml_text : string) :
  (lookup "FIRname" names_n = None ->
   Kml.fir_placemark w polygons_n names_n kml_text = raise KeyError)
  /\ (forall v, lookup "FIRname" names_n = Some v ->
                (forall s, v <> PStr s) ->
                Kml.fir_placemark w polygons_n names_n kml_text
                = raise TypeError)
  /\ (forall s, lookup "FIRname" names_n = Some (PStr s) ->
                forallb has_lon_lat polygons_n = false ->
                Kml.fir_placemark w polygons_n names_n kml_text
                = raise IndexError)
  /\ (forall s, lookup "FIRname" names_n = Some (PStr s) ->
                forallb has_lon_lat polygons_n = true ->
                exists text,
                  Kml.fir_placemark w polygons_n names_n kml_text
                  = ([FileWrite text], inr "")).
Proof.
  split; [apply fir_placemark_no_name|]. split; [|split].
  - intros v Hv Hnot. unfold Kml.fir_placemark. rewrite Hv.
    destruct v as [s| |]; [now elim (Hnot s)|reflexivity|reflexivity].
  - intros s Hs Hshort. unfold Kml.fir_placemark. cbv zeta.
    rewrite Hs, bind_ret.
    match goal with
    | |- context [Kml.extended_data w ?keys ?n ?txt] =>
        destruct (extended_data_own_keys w n keys txt (incl_refl _))
          as [text ->]
    end.
    rewrite bind_ret, border_points_short by assumption. reflexivity.
  - intros s Hs Hpoints. unfold Kml.fir_placemark. cbv zeta.
    rewrite Hs, bind_ret.
    match goal with
    | |- context [Kml.extended_data w ?keys ?n ?txt] =>
        destruct (extended_data_own_keys w n keys txt (incl_refl _))
          as [text ->]
    end.
    rewrite bind_ret, border_points_vertices by assumption.
    rewrite bind_ret. eexists. reflexivity.
Qed.

Lemma fir_placemark_cases_witness :
  (lookup "FIRname" [("FIRname", PNum 7)] = Some (PNum 7)
   /\ (forall s, PNum 7 <> PStr s))
  /\ Kml.fir_placemark Sample.world [[0; 0]; [0; 1]] [("FIRname", PNum 7)] ""
     = raise TypeError.
Proof.
  assert (H : forall s, PNum 7 <> PStr s) by discriminate.
  split; [split; [reflexivity|exact H]|].
  exact (proj1 (proj2 (fir_placemark_cases
                         Sample.world [[0; 0]; [0; 1]]
                         [("FIRname", PNum 7)] ""))
               (PNum 7) eq_refl H).
Defined.

(** The entry of a well-formed FIR, whose attribute names are distinct
    as in a Python dictionary: after what the buffer held, the name of the
    FIR, the FIR style, every attribute as a name and value pair in the
    order of the map, and the ring, every border point written as its
    first coordinate, its second coordinate and the altitude 0, in the
    order of the ring. *)
Theorem fir_placemark_entry (w : World) (polygons_n : list (list Q))
    (names_n : list (string * PropValue)) (kml_text FIRname : string)
    (Hname : lookup "FIRname" names_n = Some (PStr FIRname))
    (Hpoints : forallb has_lon_lat polygons_n = true)
    (Hkeys : NoDup (map fst names_n)) :
  Kml.fir_placemark w polygons_n names_n kml_text
  = ([FileWrite (kml_text +++ fir_entry w FIRname polygons_n names_n)],
     inr "").
Proof.
  unfold Kml.fir_placemark. cbv zeta. rewrite Hname, bind_ret.
  rewrite extended_data_entries
    by (intros kv Hkv; now apply lookup_unique_key).
  rewrite bind_ret, border_points_vertices by assumption.
  rewrite bind_ret. unfold Kml.writeKML. rewrite bind_emit.
  cbn [trace outcome fst snd ret]. unfold fir_entry.
  rewrite !append_assoc. reflexivity.
Qed.

Lemma fir_placemark_entry_witness :
  (lookup "FIRname" [("FIRname", PStr "TEST"); ("area", PNum 5)]
   = Some (PStr "TEST")
   /\ forallb has_lon_lat [[0; 0]; [0; 1]; [1; 1]; [1; 0]] = true
   /\ NoDup (map fst [("FIRname", PStr "TEST"); ("area", PNum 5)]))
  /\ Kml.fir_placemark Sample.world [[0; 0]; [0; 1]; [1; 1]; [1; 0]]
       [("FIRname", PStr "TEST"); ("area", PNum 5)] ""
     = ([FileWrite (fir_entry Sample.world "TEST"
                      [[0; 0]; [0; 1]; [1; 1]; [1; 0]]
                      [("FIRname", PStr "TEST"); ("area", PNum 5)])],
        inr "").
Proof.
  assert (Hkeys : NoDup (map fst [("FIRname", PStr "TEST");
                                  ("area", PNum 5)])).
  { cbn. constructor; [|constructor; [|constructor]].
    - intros [H|[]]. discriminate H.
    - intros []. }
  split; [split; [reflexivity|split; [reflexivity|exact Hkeys]]|].
  exact (fir_placemark_entry Sample.world [[0; 0]; [0; 1]; [1; 1]; [1; 0]]
           [("FIRname", PStr "TEST"); ("area", PNum 5)] "" "TEST"
           eq_refl eq_refl Hkeys).
Defined.

(** ** The border of a FIR (2.4.4) *)

Lemma border_points_two_coordinates (w : World) (points : list (list Q))
    (kml_text : string) :
  Kml.border_points w (map (firstn 2) points) kml_text
  = Kml.border_points w points kml_text.
Proof.
  revert kml_text. induction points as [|p points IH]; intros kml_text;
    [reflexivity|].
  cbn [map Kml.border_points].
  destruct p as [|p0 [|p1 p]]; cbn [firstn]; try reflexivity.
  apply IH.
Qed.

(** The ring of a FIR is written from the first two coordinates of each
    border point and nothing else: two rings whose points agree on these
    give the same text or the same failure, so a third coordinate (an
    altitude) in the file is never written, the altitude written being
    0; and a point with fewer than two coordinates fails the loop with an
    [IndexError]. *)
Theorem border_points_cases (w : World) (points : list (list Q))
    (kml_text : string) :
  (forall points',
      map (firstn 2) points = map (firstn 2) points' ->
      Kml.border_points w points kml_text
      = Kml.border_points w points' kml_text)
  /\ (forallb has_lon_lat points = true ->
      Kml.border_points w points kml_text
      = ret (kml_text +++ join (map (vertex_text w) points)))
  /\ (forallb has_lon_lat points = false ->
      Kml.border_points w points kml_text = raise IndexError).
Proof.
  split; [|split].
  - intros points' H.
    rewrite <- (border_points_two_coordinates w points),
            <- (border_points_two_coordinates w points'), H.
    reflexivity.
  - apply border_points_vertices.
  - apply border_points_short.
Qed.

Lemma border_points_cases_witness :
  map (firstn 2) [[1; 2; 300]; [3; 4]] = map (firstn 2) [[1; 2]; [3; 4; 500]]
  /\ Kml.border_points Sample.world [[1; 2; 300]; [3; 4]] ""
     = Kml.border_points Sample.world [[1; 2]; [3; 4; 500]] "".
Proof.
  split; [reflexivity|].
  exact (proj1 (border_points_cases Sample.world [[1; 2; 300]; [3; 4]] "")
               [[1; 2]; [3; 4; 500]] eq_refl).
Defined.

(** ** The buffer of the marker loop (2.5.2 and [writeKML]) *)

Lemma flight_placemark_buffer (w : World) (flight_pos : Q * Q)
    (kml_text : string) :
  Kml.flight_placemark w flight_pos kml_text
  = kml_text +++ Kml.flight_placemark w flight_pos "".
Proof.
  unfold Kml.flight_placemark. cbn [String.append].
  rewrite !append_assoc. reflexivity.
Qed.

Lemma flight_data_pending (w : World) b la lo r (l : list Row)
    (idx : list nat) (kml_text : string) :
  Kml.flight_data w b la lo r (map latitude l) (map longitude l) idx kml_text
  = match filter (fun i => decision w b la lo r (nth i l row0)) idx with
    | [] => ret kml_text
    | i :: rest =>
        (FileWrite (kml_text +++
                    Kml.flight_placemark w (position (nth i l row0)) "")
           :: map (fun i => marker w (nth i l row0)) rest,
         inr "")
    end.
Proof.
  induction idx as [|i idx IH]; [reflexivity|].
  cbn [Kml.flight_data]. rewrite !nth_latitude, !nth_longitude.
  cbn [filter]. fold (decision w b la lo r (nth i l row0)).
  destruct (decision w b la lo r (nth i l row0)); [|exact IH].
  rewrite writeKML_bind, flight_data_indices, flight_placemark_buffer.
  reflexivity.
Qed.

(** What the marker loop does with text still in the buffer when it
    starts: if no record of the slice is accepted, nothing is written and
    the buffer is handed on unchanged; otherwise the text goes out at the
    head of the first marker, the other markers follow one per write, and
    the buffer ends empty.  No text is lost and none is written twice. *)
Theorem flight_data_buffer (w : World) (radius_in_mn : bool)
    (sat_lat sat_lon : Q) (sat_radius : Z) (slice : list Row)
    (kml_text : string) :
  Kml.flight_data w radius_in_mn sat_lat sat_lon sat_radius
    (map latitude slice) (map longitude slice)
    (seq 0 (List.length (map latitude slice))) kml_text
  = match accepted_rows w radius_in_mn sat_lat sat_lon sat_radius slice with
    | [] => ret kml_text
    | first :: rest =>
        (FileWrite (kml_text +++ Kml.flight_placemark w (position first) "")
           :: map (marker w) rest,
         inr "")
    end.
Proof.
  rewrite flight_data_pending, length_map. unfold accepted_rows.
  rewrite <- (map_id (filter (decision w radius_in_mn sat_lat sat_lon
                                       sat_radius) slice)).
  rewrite <- (range_filter (fun x => x)).
  destruct (filter (fun i => decision w radius_in_mn sat_lat sat_lon
                                      sat_radius (nth i slice row0))
                   (seq 0 (List.length slice))) as [|i rest];
    [reflexivity|].
  cbn [map]. now rewrite map_map.
Qed.

(** ** The whole runs *)







(** ** The radius and the unit in the test *)

Lemma Qlt_bool_radius (x : Q) (r1 r2 : Z) :
  (r1 <= r2)%Z -> Qlt_bool x (inject_Z r1) = true ->
  Qlt_bool x (inject_Z r2) = true.
Proof.
  intros Hr H. apply Qlt_bool_iff in H. apply Qlt_bool_iff.
  eapply Qlt_le_trans; [exact H|]. rewrite <- Zle_Qle. exact Hr.
Qed.

Lemma decision_radius (w : World) b la lo (r1 r2 : Z) (row : Row) :
  (r1 <= r2)%Z -> decision w b la lo r1 row = true ->
  decision w b la lo r2 row = true.
Proof.
  intros Hr. unfold decision. cbv zeta.
  destruct b; cbn [andb].
  - destruct (Qlt_bool (Distance.nm _) (inject_Z r1)) eqn:E1.
    + intros _. now rewrite (Qlt_bool_radius _ _ _ Hr E1).
    + destruct (Qlt_bool (Distance.km _) (inject_Z r1)) eqn:E2;
        [|discriminate].
      intros _. rewrite (Qlt_bool_radius _ _ _ Hr E2).
      now destruct (Qlt_bool (Distance.nm _) (inject_Z r2)).
  - destruct (Qlt_bool (Distance.km _) (inject_Z r1)) eqn:E2; [|discriminate].
    intros _. now rewrite (Qlt_bool_radius _ _ _ Hr E2).
Qed.

Lemma decision_unit (w : World) la lo (r : Z) (row : Row) :
  decision w false la lo r row = true -> decision w true la lo r row = true.
Proof.
  unfold decision. cbv zeta. cbn [andb].
  destruct (Qlt_bool (Distance.km _) _); [|discriminate].
  now destruct (Qlt_bool (Distance.nm _) _).
Qed.

Lemma filter_length_implies {A} (P P' : A -> bool) (l : list A) :
  (forall x, P x = true -> P' x = true) ->
  (List.length (filter P l) <= List.length (filter P' l))%nat
  /\ incl (filter P l) (filter P' l).
Proof.
  intros H. split.
  - induction l as [|x l IH]; cbn; [lia|].
    destruct (P x) eqn:E; [rewrite (H x E); cbn; lia|].
    destruct (P' x); cbn; lia.
  - intros x Hx. apply filter_In in Hx. apply filter_In.
    destruct Hx as [Hin Hp]. split; auto.
Qed.

(** A larger radius never loses a flight, and with the same number as
    radius the default unit (nautical miles) never loses a flight that
    [-km] accepts: in both cases every accepted row stays accepted and
    the count of the filter script does not decrease. *)
Theorem acceptance_grows (w : World) (sat_lat sat_lon : Q)
    (slice : list Row) :
  (forall radius_in_mn (r1 r2 : Z),
      (r1 <= r2)%Z ->
      incl (accepted_rows w radius_in_mn sat_lat sat_lon r1 slice)
           (accepted_rows w radius_in_mn sat_lat sat_lon r2 slice)
      /\ (Filter.aircraft_count w radius_in_mn sat_lat sat_lon r1
            (map latitude slice) (map longitude slice)
          <= Filter.aircraft_count w radius_in_mn sat_lat sat_lon r2
               (map latitude slice) (map longitude slice))%Z)
  /\ (forall r : Z,
        incl (accepted_rows w false sat_lat sat_lon r slice)
             (accepted_rows w true sat_lat sat_lon r slice)
        /\ (Filter.aircraft_count w false sat_lat sat_lon r
              (map latitude slice) (map longitude slice)
            <= Filter.aircraft_count w true sat_lat sat_lon r
                 (map latitude slice) (map longitude slice))%Z).
Proof.
  split.
  - intros b r1 r2 Hr. rewrite !aircraft_count_filter. unfold accepted_rows.
    destruct (filter_length_implies
                (decision w b sat_lat sat_lon r1)
                (decision w b sat_lat sat_lon r2) slice
                (fun row => decision_radius w b sat_lat sat_lon r1 r2 row Hr))
      as [Hlen Hincl].
    split; [exact Hincl|lia].
  - intros r. rewrite !aircraft_count_filter. unfold accepted_rows.
    destruct (filter_length_implies
                (decision w false sat_lat sat_lon r)
                (decision w true sat_lat sat_lon r) slice
                (decision_unit w sat_lat sat_lon r))
      as [Hlen Hincl].
    split; [exact Hincl|lia].
Qed.

Lemma acceptance_grows_witness :
  (1000 <= 2000)%Z
  /\ (Filter.aircraft_count Sample.world false 10 20 1000
        (map latitude Sample.flights) (map longitude Sample.flights)
      <= Filter.aircraft_count Sample.world false 10 20 2000
           (map latitude Sample.flights) (map longitude Sample.flights))%Z.
Proof.
  assert (H : (1000 <= 2000)%Z) by lia.
  split; [exact H|].
  exact (proj2 (proj1 (acceptance_grows Sample.world 10 20 Sample.flights)
                      false 1000%Z 2000%Z H)).
Defined.

(** The count of the filter script lies between 0 and the size of the
    slice.  With a radius of zero or less and a non-negative distance no
    row is accepted: the count is 0 and the KML script writes no marker.
    And a flight at distance zero of the centre is accepted by every
    positive radius, in either unit. *)
Theorem acceptance_bounds (w : World) (radius_in_mn : bool)
    (sat_lat sat_lon : Q) (sat_radius : Z) (slice : list Row) :
  (0 <= Filter.aircraft_count w radius_in_mn sat_lat sat_lon sat_radius
          (map latitude slice) (map longitude slice)
   <= Z.of_nat (List.length slice))%Z
  /\ ((forall a b, 0 <= great_circle w a b) -> (sat_radius <= 0)%Z ->
      accepted_rows w radius_in_mn sat_lat sat_lon sat_radius slice = []
      /\ Filter.aircraft_count w radius_in_mn sat_lat sat_lon sat_radius
           (map latitude slice) (map longitude slice) = 0%Z
      /\ Kml.flight_data w radius_in_mn sat_lat sat_lon sat_radius
           (map latitude slice) (map longitude slice)
           (seq 0 (List.length (map latitude slice))) ""
         = ret "")
  /\ (forall row,
        great_circle w (sat_lat, sat_lon) (position row) == 0 ->
        (0 < sat_radius)%Z ->
        decision w radius_in_mn sat_lat sat_lon sat_radius row = true).
Proof.
  split; [|split].
  - rewrite aircraft_count_filter.
    pose proof (filter_length_le
                  (decision w radius_in_mn sat_lat sat_lon sat_radius) slice).
    lia.
  - intros Hdist Hr.
    assert (Hnone : accepted_rows w radius_in_mn sat_lat sat_lon sat_radius
                                  slice = []).
    { unfold accepted_rows.
      rewrite (filter_ext _ (fun _ => false)); [now induction slice|].
      intros row. unfold decision. cbv zeta.
      assert (Hkm : Qlt_bool (Distance.km (great_circle w (sat_lat, sat_lon)
                                (latitude row, longitude row)))
                             (inject_Z sat_radius) = false).
      { apply Qlt_bool_false_iff. unfold Distance.km.
        apply Qle_trans with (inject_Z 0); [rewrite <- Zle_Qle; exact Hr|].
        apply Hdist. }
      assert (Hnm : Qlt_bool (Distance.nm (great_circle w (sat_lat, sat_lon)
                                (latitude row, longitude row)))
                             (inject_Z sat_radius) = false).
      { apply Qlt_bool_false_iff.
        apply Qle_trans with (inject_Z 0); [rewrite <- Zle_Qle; exact Hr|].
        change (inject_Z 0) with 0.
        unfold Distance.nm. apply Qle_shift_div_l; [reflexivity|].
        rewrite Qmult_0_l. apply Hdist. }
      rewrite Hkm, Hnm. now destruct radius_in_mn. }
    split; [exact Hnone|]. unfold accepted_rows in Hnone. split.
    + now rewrite aircraft_count_filter, Hnone.
    + now rewrite flight_data_filter, Hnone.
  - intros row Hzero Hr. unfold decision, position in *. cbv zeta.
    assert (Hkm : Qlt_bool (Distance.km (great_circle w (sat_lat, sat_lon)
                              (latitude row, longitude row)))
                           (inject_Z sat_radius) = true).
    { apply Qlt_bool_iff. unfold Distance.km. rewrite Hzero.
      change 0 with (inject_Z 0). rewrite <- Zlt_Qlt. exact Hr. }
    rewrite Hkm.
    now destruct (radius_in_mn && Qlt_bool _ _).
Qed.

Lemma acceptance_bounds_witness :
  ((forall a b, 0 <= great_circle Sample.world a b) /\ (-5 <= 0)%Z)
  /\ Filter.aircraft_count Sample.world true 10 20 (-5)
       (map latitude Sample.flights) (map longitude Sample.flights) = 0%Z.
Proof.
  assert (H : (-5 <= 0)%Z) by lia.
  split; [split; [exact sample_great_circle_nonneg|exact H]|].
  exact (proj1 (proj2 (proj1 (proj2 (acceptance_bounds
           Sample.world true 10 20 (-5) Sample.flights))
           sample_great_circle_nonneg H))).
Defined.

(** ** Words after a valid command line *)

Lemma bind_success {A B} (m : M A) (f : A -> M B) (b : B) :
  outcome (bind m f) = inr b ->
  exists a, outcome m = inr a /\ outcome (f a) = inr b.
Proof.
  destruct m as [t [e|a]]; cbn; [discriminate|].
  intros H. exists a. split; [reflexivity|].
  now destruct (f a).
Qed.

(** Two runs that agree step by step as long as the second succeeds. *)
Lemma bind_cong_success {A B} (m m' : M A) (f f' : A -> M B) (b : B) :
  outcome (bind m f) = inr b ->
  (forall a, outcome m = inr a -> m' = m) ->
  (forall a, outcome m = inr a -> outcome (f a) = inr b -> f' a = f a) ->
  bind m' f' = bind m f.
Proof.
  intros H Hm Hf. destruct (bind_success _ _ _ H) as (a & Ha & Hfa).
  rewrite (Hm a Ha). destruct m as [t [e|a']]; [discriminate Ha|].
  cbn in Ha. injection Ha as ->. cbn. now rewrite (Hf a eq_refl Hfa).
Qed.

Lemma mandatory_arguments_success (help_manual : string)
    (argv args : list string) (u : Datatypes.unit) :
  outcome (mandatory_arguments help_manual argv args) = inr u ->
  Forall (fun flag => mem flag argv = true) args.
Proof.
  induction args as [|a args IH]; cbn [mandatory_arguments]; intros H;
    [constructor|].
  destruct (mem a argv) eqn:Ha; cbn in H; [|discriminate H].
  constructor; auto.
Qed.

Lemma arguments_filtering_success (min_len : nat) (help_manual : string)
    (argv : list string) (u : Datatypes.unit) :
  outcome (arguments_filtering min_len help_manual argv) = inr u ->
  (min_len <= List.length argv)%nat
  /\ Forall (fun flag => mem flag argv = true) man_arg_list.
Proof.
  unfold arguments_filtering.
  destruct (Nat.ltb_spec (List.length argv) min_len) as [Hlt|Hge].
  - destruct ((List.length argv =? 2)%nat && String.eqb (nth 1 argv "") "-h");
      discriminate.
  - intros H. split; [exact Hge|].
    now apply mandatory_arguments_success in H.
Qed.

Lemma index_of_app_present (x : string) (l l' : list string) (i : nat) :
  index_of x l = Some i -> index_of x (l ++ l') = Some i.
Proof.
  revert i. induction l as [|y l IH]; cbn; intros i; [discriminate|].
  destruct (String.eqb y x); [auto|].
  destruct (index_of x l) as [j|]; [|discriminate].
  now rewrite (IH j eq_refl).
Qed.

Lemma arg_after_app (flag value : string) (argv more : list string) :
  arg_after flag argv = ret value ->
  arg_after flag (argv ++ more) = ret value.
Proof.
  unfold arg_after, argv_at.
  destruct (index_of flag argv) as [i|] eqn:Hi; [|discriminate].
  rewrite (index_of_app_present _ _ more _ Hi).
  destruct (nth_error argv (i + 1)) as [v|] eqn:Hv; [|discriminate].
  intros H. rewrite nth_error_app1, Hv; [exact H|].
  apply nth_error_Some. now rewrite Hv.
Qed.

Lemma argv_at_app (argv more : list string) (i : nat) :
  (i < List.length argv)%nat -> argv_at (argv ++ more) i = argv_at argv i.
Proof. intros H. unfold argv_at. now rewrite nth_error_app1. Qed.

Lemma arg_after_success {B} (flag : string) (argv : list string)
    (f : string -> M B) (b : B) :
  outcome (bind (arg_after flag argv) f) = inr b ->
  exists value, arg_after flag argv = ret value.
Proof.
  destruct (arg_after_cases flag argv) as [E|[E|E]]; [| |intros _; exact E];
    rewrite E; discriminate.
Qed.

Lemma except_ValueError_success {A} (body handler : M A) (a : A) :
  outcome handler = inl SystemExit ->
  outcome (except_ValueError body handler) = inr a ->
  outcome body = inr a /\ except_ValueError body handler = body.
Proof.
  intros Hh. unfold except_ValueError.
  destruct body as [t [[]|x]]; cbn; try discriminate; [|auto].
  destruct handler as [t' r]. cbn in *. subst. discriminate.
Qed.

Lemma numerical_values_app (w : World) (help_manual : string)
    (argv more : list string) (nums : Q * Q * Z) :
  outcome (numerical_values w help_manual argv) = inr nums ->
  numerical_values w help_manual (argv ++ more)
  = numerical_values w help_manual argv.
Proof.
  unfold numerical_values. intros H.
  apply except_ValueError_success in H; [|reflexivity].
  destruct H as [H _]. f_equal.
  eapply bind_cong_success; [exact H| |].
  - intros a _. destruct (arg_after_success _ _ _ _ H) as [v Hv].
    now rewrite (arg_after_app _ _ _ more Hv).
  - intros a _ H1.
    eapply bind_cong_success; [exact H1|reflexivity|].
    intros sat_lat _ H2.
    eapply bind_cong_success; [exact H2| |].
    + intros b _. destruct (arg_after_success _ _ _ _ H2) as [v Hv].
      now rewrite (arg_after_app _ _ _ more Hv).
    + intros b _ H3.
      eapply bind_cong_success; [exact H3|reflexivity|].
      intros sat_lon _ H4.
      eapply bind_cong_success; [exact H4| |reflexivity].
      intros c _. destruct (arg_after_success _ _ _ _ H4) as [v Hv].
      now rewrite (arg_after_app _ _ _ more Hv).
Qed.

Lemma time_values_app (help_manual : string) (argv more : list string)
    (sat_time : string) :
  outcome (time_values help_manual argv) = inr sat_time ->
  time_values help_manual (argv ++ more) = time_values help_manual argv.
Proof.
  unfold time_values. intros H.
  destruct (arg_after_success _ _ _ _ H) as [v Hv].
  now rewrite (arg_after_app _ _ _ more Hv), Hv.
Qed.

Lemma arguments_filtering_app (min_len : nat) (help_manual : string)
    (argv more : list string) (u : Datatypes.unit) :
  outcome (arguments_filtering min_len help_manual argv) = inr u ->
  arguments_filtering min_len help_manual (argv ++ more)
  = arguments_filtering min_len help_manual argv.
Proof.
  intros H. apply arguments_filtering_success in H. destruct H as [Hlen Hfl].
  rewrite (arguments_filtering_present _ _ argv Hlen Hfl).
  apply arguments_filtering_present.
  - rewrite length_app. lia.
  - eapply Forall_impl; [|exact Hfl].
    intros flag Hflag. cbn beta in *. now rewrite mem_app, Hflag.
Qed.

Lemma filter_initial_checks_app (w : World) (argv more : list string)
    (checked : Q * Q * Z * string * string) :
  outcome (Filter.initial_checks w argv) = inr checked ->
  Filter.initial_checks w (argv ++ more) = Filter.initial_checks w argv
  /\ (10 <= List.length argv)%nat.
Proof.
  unfold Filter.initial_checks. intros H.
  destruct (bind_success _ _ _ H) as (u & Hu & _).
  pose proof (proj1 (arguments_filtering_success _ _ _ _ Hu)) as Hlen.
  split; [|exact Hlen].
  eapply bind_cong_success; [exact H| |].
  { intros a Ha. now apply arguments_filtering_app with (u := a). }
  intros _ _ H1.
  eapply bind_cong_success; [exact H1| |].
  { intros nums Hn. now apply numerical_values_app with (nums := nums). }
  intros nums _ H2.
  eapply bind_cong_success; [exact H2| |].
  { intros t Ht. now apply time_values_app with (sat_time := t). }
  intros t _ H3.
  eapply bind_cong_success; [exact H3| |reflexivity].
  intros ff _. unfold Filter.flights_file_check.
  now rewrite argv_at_app by lia.
Qed.

Lemma kml_initial_checks_app (w : World) (argv more : list string)
    (checked : Q * Q * Z * string * string) :
  outcome (Kml.initial_checks w argv) = inr checked ->
  Kml.initial_checks w (argv ++ more) = Kml.initial_checks w argv
  /\ (12 <= List.length argv)%nat.
Proof.
  unfold Kml.initial_checks. intros H.
  destruct (bind_success _ _ _ H) as (u & Hu & _).
  pose proof (proj1 (arguments_filtering_success _ _ _ _ Hu)) as Hlen.
  split; [|exact Hlen].
  eapply bind_cong_success; [exact H| |].
  { intros a Ha. now apply arguments_filtering_app with (u := a). }
  intros _ _ H1.
  eapply bind_cong_success; [exact H1| |].
  { intros nums Hn. now apply numerical_values_app with (nums := nums). }
  intros nums _ H2.
  eapply bind_cong_success; [exact H2| |].
  { intros t Ht. now apply time_values_app with (sat_time := t). }
  intros t _ H3.
  unfold Kml.geojson_file_check, Kml.flights_file_check,
    Kml.output_name_check.
  now rewrite !argv_at_app by lia.
Qed.

(** Words added after a command line that passes the checks change
    nothing, unless one of them is [-km]: the scripts run as without
    them.  In particular [-nm] is never read (nautical miles are simply
    what is used without [-km]), and a flag the scripts do not know is
    not refused. *)
Theorem trailing_words_ignored (w : World) (argv more : list string)
    (Hkm : mem "-km" more = false) :
  (forall checked,
      outcome (Filter.initial_checks w argv) = inr checked ->
      Filter.main w (argv ++ more) = Filter.main w argv)
  /\ (forall checked,
        outcome (Kml.initial_checks w argv) = inr checked ->
        Kml.main w (argv ++ more) = Kml.main w argv).
Proof.
  split; intros checked H.
  - destruct (filter_initial_checks_app w argv more checked H) as [Heq _].
    unfold Filter.main. rewrite Heq. apply bind_ext.
    intros [[[[sat_lat sat_lon] sat_radius] sat_time] flights_file].
    unfold Filter.process. now rewrite mem_app, Hkm, orb_false_r.
  - destruct (kml_initial_checks_app w argv more checked H) as [Heq Hlen].
    unfold Kml.main. rewrite Heq. apply bind_ext.
    intros [[[[sat_lat sat_lon] sat_radius] sat_time] flights_file].
    unfold Kml.process.
    now rewrite mem_app, Hkm, orb_false_r, !argv_at_app by lia.
Qed.

Lemma trailing_words_ignored_witness :
  (mem "-km" ["-nm"; "-verbose"] = false
   /\ outcome (Filter.initial_checks Sample.world
                 ["filter.py"; "flights.csv"; "-lat"; "10"; "-lon"; "20";
                  "-time"; "12:00:00"; "-rad"; "1000"])
      = inr (10, 20, 1000%Z, "12:00:00", "flights.csv"))
  /\ Filter.main Sample.world
       (["filter.py"; "flights.csv"; "-lat"; "10"; "-lon"; "20";
         "-time"; "12:00:00"; "-rad"; "1000"] ++ ["-nm"; "-verbose"])
     = Filter.main Sample.world
         ["filter.py"; "flights.csv"; "-lat"; "10"; "-lon"; "20";
          "-time"; "12:00:00"; "-rad"; "1000"].
Proof.
  split; [split; reflexivity|].
  exact (proj1 (trailing_words_ignored
                  Sample.world
                  ["filter.py"; "flights.csv"; "-lat"; "10"; "-lon"; "20";
                   "-time"; "12:00:00"; "-rad"; "1000"]
                  ["-nm"; "-verbose"] eq_refl)
               (10, 20, 1000%Z, "12:00:00", "flights.csv") eq_refl).
Defined.

(** ** What the document holds *)





(** ** A FIR whose entry cannot be built *)

Lemma loaded_app (t1 t2 : list event) :
  loaded (t1 ++ t2) = loaded t1 ++ loaded t2.
Proof.
  induction t1 as [|ev t1 IH]; [reflexivity|].
  destruct ev; cbn; congruence.
Qed.

Lemma loaded_writes (l : list string) : loaded (map FileWrite l) = [].
Proof. induction l; cbn; auto. Qed.

Lemma fir_features_fail (w : World) (good rest : list Feature)
    (bad : Feature) (e : exn) :
  Forall (fir_written w) good ->
  Kml.fir_placemark w (first_ring bad) (properties bad) "" = raise e ->
  fir_features w (good ++ bad :: rest) ""
  = (map FileWrite (fir_chunks w good), inl e).
Proof.
  intros Hgood Hbad. induction Hgood as [|g good [s Hg] _ IH].
  - cbn [app fir_features]. now rewrite Hbad.
  - cbn [app fir_features]. unfold fir_chunks. cbn [flat_map].
    fold (fir_chunks w good).
    destruct (fir_placemark_result w (first_ring g) (properties g) "")
      as [[e' He]|[text Ht]].
    + rewrite He in Hg. discriminate.
    + rewrite Ht. cbn [bind]. rewrite IH. reflexivity.
Qed.

(** Whatever makes the entry of a FIR fail (no name, a name that is not
    a string, a border point of fewer than two coordinates), the failure
    comes after the output was opened: the run ends with that exception,
    the flights are never classified, and the file holds the header, the
    two styles and the entries of the features before the failing one,
    without footer, and is not closed. *)
Theorem kml_process_stops_at_bad_fir (w : World) (argv : list string)
    (checked : Q * Q * Z * string * string) (geojson output_name : string)
    (good rest : list Feature) (bad : Feature) (e : exn)
    (Hgeojson : nth_error argv 1 = Some geojson)
    (Houtput : nth_error argv 3 = Some output_name)
    (Hload : pygeoj_load w geojson = good ++ bad :: rest)
    (Hrings : Forall (fun f => coordinates f <> []) (pygeoj_load w geojson))
    (Hgood : Forall (fir_written w) good)
    (Hbad : Kml.fir_placemark w (first_ring bad) (properties bad) ""
            = raise e) :
  outcome (Kml.process w argv checked) = inl e
  /\ loaded (trace (Kml.process w argv checked))
     = [geojson; snd checked]
  /\ written (trace (Kml.process w argv checked))
     = Some (Kml.kml_header output_name :: Kml.style_FIR
             :: Kml.style_Flight :: fir_chunks w good)
  /\ ~ In FileClose (trace (Kml.process w argv checked)).
Proof.
  assert (Hrun : exists t,
             Kml.process w argv checked
             = (t ++ FileOpen ("./" +++ output_name)
                  :: map FileWrite
                       (Kml.kml_header output_name :: Kml.style_FIR
                        :: Kml.style_Flight :: fir_chunks w good),
                inl e)
             /\ loaded t = [geojson; snd checked]
             /\ written t = None /\ ~ In FileClose t).
  { destruct checked
      as [[[[sat_lat sat_lon] sat_radius] sat_time] flights_file].
    run_to_getFIRs Hgeojson.
    rewrite getFIRs_loop_rings by assumption.
    run_to_fir_data Houtput.
    cbn [app]. rewrite length_map.
    pose proof (fir_data_features w (pygeoj_load w geojson) [] "") as Hloop.
    cbn [app List.length] in Hloop. rewrite Hloop, Hload.
    rewrite (fir_features_fail w good rest bad e Hgood Hbad).
    eexists (_ :: _ :: _ :: _ :: _ :: _ :: _ :: _ :: _ :: _ :: []).
    split; [reflexivity|]. split; [reflexivity|]. split; [reflexivity|].
    intros Hclose. repeat (destruct Hclose as [Hclose|Hclose];
                           [discriminate Hclose|]).
    exact Hclose. }
  destruct Hrun as (t & -> & Hloaded & Hwritten & Hclose).
  cbn [outcome trace fst snd].
  split; [reflexivity|]. split; [|split].
  - rewrite loaded_app, Hloaded. cbn [loaded app].
    now rewrite loaded_writes.
  - rewrite written_app by assumption. cbn [written].
    now rewrite writes_writes.
  - intros Hin. apply in_app_or in Hin. destruct Hin as [Hin|[Hin|Hin]].
    + exact (Hclose Hin).
    + discriminate Hin.
    + exact (no_close_in_writes _ Hin).
Qed.

Lemma kml_process_stops_at_bad_fir_witness :
  (nth_error (Sample.kml_argv "out.kml" "12:00:00" "1000") 1
   = Some "firs.geojson"
   /\ nth_error (Sample.kml_argv "out.kml" "12:00:00" "1000") 3
      = Some "out.kml"
   /\ pygeoj_load world_short_point "firs.geojson"
      = Sample.firs ++ mkFeature [[ [2; 2]; [3] ]]
                                 [("FIRname", PStr "SHORT")] :: []
   /\ Forall (fun f => coordinates f <> [])
             (pygeoj_load world_short_point "firs.geojson")
   /\ Forall (fir_written world_short_point) Sample.firs
   /\ Kml.fir_placemark world_short_point [[2; 2]; [3]]
        [("FIRname", PStr "SHORT")] "" = raise IndexError)
  /\ outcome (Kml.process world_short_point
                (Sample.kml_argv "out.kml" "12:00:00" "1000")
                (10, 20, 1000%Z, "12:00:00", "flights.csv"))
     = inl IndexError
  /\ written (trace (Kml.process world_short_point
                       (Sample.kml_argv "out.kml" "12:00:00" "1000")
                       (10, 20, 1000%Z, "12:00:00", "flights.csv")))
     = Some (Kml.kml_header "out.kml" :: Kml.style_FIR :: Kml.style_Flight
             :: fir_chunks world_short_point Sample.firs).
Proof.
  assert (Hrings : Forall (fun f => coordinates f <> [])
                          (pygeoj_load world_short_point "firs.geojson"))
    by (repeat constructor; discriminate).
  assert (Hgood : Forall (fir_written world_short_point) Sample.firs)
    by (repeat constructor; eexists; reflexivity).
  split; [repeat split; assumption|].
  pose proof (kml_process_stops_at_bad_fir
                world_short_point
                (Sample.kml_argv "out.kml" "12:00:00" "1000")
                (10, 20, 1000%Z, "12:00:00", "flights.csv")
                "firs.geojson" "out.kml" Sample.firs []
                (mkFeature [[ [2; 2]; [3] ]] [("FIRname", PStr "SHORT")])
                IndexError eq_refl eq_refl eq_refl Hrings Hgood eq_refl)
    as (Hout & _ & Hwritten & _).
  split; assumption.
Defined.
